(** * pipedrive-py: record projection, paginated collections and the gateway

    A shallow embedding of [pipedrive/base.py].

    - JSON payloads (what [response.json()] returns, and the documents
      nested in it) are immutable trees of type [json].
    - Python exceptions are the [Raise] results of [result].
    - Objects whose identity matters (a dict handed to a function, the
      gateway, a resource client) live in a store indexed by locations;
      see the section on the store. *)

From Stdlib Require Import ZArith String List.
From stdpp Require Import base option list gmap strings fin_maps fin_sets.

Open Scope string_scope.

(** ** Values and exceptions

    The numbers of a document are integers here; no code of this file
    computes with them. *)

#[warnings="-register-all"]
Inductive json :=
| JNull
| JBool (b : bool)
| JInt (n : Z)
| JStr (s : string)
| JList (l : list json)
| JDict (d : gmap string json).

#[global] Instance json_inhabited : Inhabited json := populate JNull.

Inductive exn :=
| AttributeError (msg : string)
| TypeError (msg : string)
| KeyError (key : string)
| IndexError (msg : string)
| ModelConversionError (msg : string)
| TransportError (msg : string).

Inductive result (A : Type) :=
| Ok (a : A)
| Raise (e : exn).
Arguments Ok {A} a.
Arguments Raise {A} e.

(** Sequencing: an exception skips the rest.  With these instances the
    notation [x ← r; k] reads as a Python statement sequence. *)
#[global] Instance result_ret : MRet result := λ A a, Ok a.
#[global] Instance result_bind : MBind result := λ A B k r,
  match r with
  | Ok a => k a
  | Raise e => Raise e
  end.

(** [[f(x) for x in xs]] where [f] may raise: the first exception stops
    the comprehension. *)
Fixpoint comprehension {A B} (f : A → result B) (xs : list A) : result (list B) :=
  match xs with
  | [] => Ok []
  | x :: xs' => y ← f x; ys ← comprehension f xs'; Ok (y :: ys)
  end.

(** Python truthiness of a JSON value. *)
Definition truthy (v : json) : bool :=
  match v with
  | JNull => false
  | JBool b => b
  | JInt n => negb (n =? 0)%Z
  | JStr s => negb (String.eqb s "")
  | JList l => match l with [] => false | _ => true end
  | JDict d => negb (bool_decide (dom d = ∅))
  end.

(** [x or y] *)
Definition py_or (x y : json) : json := if truthy x then x else y.

(** [obj.get(key, default)]: only dicts have the method. *)
Definition get (obj : json) (key : string) (default_value : json) : result json :=
  match obj with
  | JDict d => Ok (default default_value (d !! key))
  | _ => Raise (AttributeError "get")
  end.

(** [obj.keys()]: only dicts have the method. *)
Definition keys (obj : json) : result (gset string) :=
  match obj with
  | JDict d => Ok (dom d)
  | _ => Raise (AttributeError "keys")
  end.

(** [obj[key]] for a string key: a dict raises [KeyError] on a missing
    key, a list or a string do not take string indices, and the other
    values are not subscriptable. *)
Definition getitem (obj : json) (key : string) : result json :=
  match obj with
  | JDict d =>
      match d !! key with
      | Some v => Ok v
      | None => Raise (KeyError key)
      end
  | _ => Raise (TypeError "indices")
  end.

(** [key in obj] for a string key: membership among the keys of a dict,
    among the elements of a list, substring test on a string; the
    other values are not containers. *)
Definition contains (obj : json) (key : string) : result bool :=
  match obj with
  | JDict d => Ok (bool_decide (is_Some (d !! key)))
  | JList l =>
      Ok (existsb (λ v, match v with JStr s => String.eqb s key | _ => false end) l)
  | JStr s => Ok (bool_decide (is_Some (String.index 0 key s)))
  | _ => Raise (TypeError "not iterable")
  end.

(** [for item in obj]: the elements of a list, the keys of a dict, the
    characters of a string. *)
Definition iterate (obj : json) : result (list json) :=
  match obj with
  | JList l => Ok l
  | JDict d => Ok (JStr <$> (map_to_list d).*1)
  | JStr s => Ok ((λ c, JStr (String c "")) <$> list_ascii_of_string s)
  | _ => Raise (TypeError "not iterable")
  end.

(** [l[key]] on a list, for an integer key: negative keys count from
    the end. *)
Definition list_getitem {A} (l : list A) (key : Z) : result A :=
  let n := Z.of_nat (length l) in
  let i := if (key <? 0)%Z then (key + n)%Z else key in
  if (i <? 0)%Z then Raise (IndexError "list index out of range")
  else match l !! Z.to_nat i with
       | Some x => Ok x
       | None => Raise (IndexError "list index out of range")
       end.

(** ** Schematics models

    A model class is known to this file through its [fields] table:
    field name to field type.  Of a field type the file reads
    [serialized_name]; the constructor of the class converts values with
    [to_native], which has no result when the type raises its conversion
    error (a string that is no number for an integer field). *)

Record FieldType := {
  serialized_name : option string;
  to_native : json → option json
}.

Record ModelClass := { fields : gmap string FieldType }.

(** A model instance, given by the call [model_class(raw_data=safe_data)]
    that makes it: its class and the raw data handed to the constructor. *)
Record Model := { model_class_of : ModelClass; raw_data : gmap string json }.

(** [x or y] on an optional string: [None] and [''] are falsy. *)
Definition str_or (x : option string) (y : string) : string :=
  match x with
  | Some s => if String.eqb s "" then y else s
  | None => y
  end.

(** [set([fields[field_name].serialized_name or field_name
          for field_name in fields])] *)
Definition model_keys (model_class : ModelClass) : gset string :=
  list_to_set
    ((λ p : string * FieldType, str_or (serialized_name p.2) p.1)
       <$> map_to_list (fields model_class)).

(** The constructor of a model class is schematics's, and strict: it
    raises on raw data with a key that it does not know, a key being
    known when it is the name or the serialized name of a field.  It
    converts, for each field, the value that the raw data has under the
    key of the field (a null is not converted), and raises when a
    conversion does.  [converts] says that no conversion raises. *)
Definition field_converts (raw_data : gmap string json)
    (p : string * FieldType) : bool :=
  match raw_data !! str_or (serialized_name p.2) p.1 with
  | None | Some JNull => true
  | Some v => bool_decide (is_Some (to_native p.2 v))
  end.

Definition converts (model_class : ModelClass) (raw_data : gmap string json)
  : bool :=
  forallb (field_converts raw_data) (map_to_list (fields model_class)).

Definition known (model_class : ModelClass) (raw_data : gmap string json)
  : bool :=
  bool_decide (dom raw_data ⊆ dom (fields model_class) ∪ model_keys model_class).

(** [model_class(raw_data=raw_data)] *)
Definition construct (model_class : ModelClass) (raw_data : gmap string json)
  : result Model :=
  if known model_class raw_data
  then if converts model_class raw_data
       then Ok {| model_class_of := model_class; raw_data := raw_data |}
       else Raise (ModelConversionError "conversion")
  else Raise (ModelConversionError "rogue field").

(** [deepcopy(data)]: a tree is its own copy.  [ByReference.dict_to_model]
    has the copy as an allocation. *)
Definition deepcopy (data : json) : json := data.

(** [{key: data[key] for key in safe_keys}] *)
Definition dict_comprehension (data : json) (safe_keys : list string)
  : result (gmap string json) :=
  kvs ← comprehension (λ key, v ← getitem data key; Ok (key, v)) safe_keys;
  Ok (list_to_map kvs).

Definition dict_to_model (data : json) (model_class : ModelClass)
  : result (option Model) :=
  match data with
  | JNull => Ok None
  | _ =>
      let data := deepcopy data in
      let model_keys := model_keys model_class in
      ks ← keys data;
      let safe_keys := ks ∩ model_keys in
      safe_data ← dict_comprehension data (elements safe_keys);
      m ← construct model_class safe_data;
      Ok (Some m)
  end.

(** ** Responses and collections *)

(** What this file reads of a [requests.Response]: [ok] and [json()]. *)
Record Response := { ok : bool; json_ : json }.

(** The first argument of [CollectionResponse]: a transport response or
    an already decoded document ([isinstance(response, requests.Response)]
    tells them apart). *)
Inductive response_arg :=
| FromResponse (r : Response)
| FromDocument (doc : json).

Module CollectionResponse.

(** The attributes of an instance.  A field that was never assigned
    reads as [None], which is [JNull] here. *)
Record t := {
  items : list (option Model);
  success : json;
  start : json;
  limit : json;
  next_start : json;
  more_items_in_collection : json
}.

Definition __init__ (response : response_arg) (model_class : ModelClass)
  : result t :=
  let response :=
    match response with
    | FromResponse r => json_ r
    | FromDocument doc => doc
    end in
  data ← get response "data" (JList []);
  let items := py_or data (JList []) in
  its ← iterate items;
  self_items ← comprehension (λ item, dict_to_model item model_class) its;
  self_success ← get response "success" (JBool false);
  has_additional_data ← contains response "additional_data";
  has_pagination ←
    (if has_additional_data : bool
     then additional_data ← getitem response "additional_data";
          contains additional_data "pagination"
     else Ok false);
  if has_pagination : bool
  then
    additional_data ← getitem response "additional_data";
    pagination ← getitem additional_data "pagination";
    self_start ← get pagination "start" (JInt 0);
    self_limit ← get pagination "limit" (JInt 100);
    self_next_start ← get pagination "next_start" (JInt 0);
    self_more ← get pagination "more_items_in_collection" (JBool false);
    Ok {| items := self_items; success := self_success;
          start := self_start; limit := self_limit;
          next_start := self_next_start;
          more_items_in_collection := self_more |}
  else
    Ok {| items := self_items; success := self_success;
          start := JNull; limit := JNull; next_start := JNull;
          more_items_in_collection := JNull |}.

Definition __len__ (self : t) : nat := length (items self).

Definition __iter__ (self : t) : list (option Model) := items self.

(** [self.items[key]] for an integer key. *)
Definition __getitem__ (self : t) (key : Z) : result (option Model) :=
  list_getitem (items self) key.

Definition exists_ (self : t) : bool := bool_decide (0 < __len__ self).

End CollectionResponse.

(** ** The store

    Objects that are passed by reference: dicts handed to the functions
    of this file, gateways ([PipedriveAPI] instances) and resource clients
    ([BaseResource] instances).  The values held in a dict are immutable
    trees; no code of this file mutates a nested value.

    A gateway has its token, [None] or a string, and the attributes that
    resource clients attach to it.  The token and the methods are kept
    apart from the attached clients.  In Python they share the namespace
    of the instance: a client attached under the name [api_token] would
    replace the token, one under [send_request] would hide the method.  No
    resource of the repository has such an accessor name; a property that
    goes on to use the gateway after a client was attached assumes a name
    outside [gateway_names]. *)

Definition loc := positive.

(** The class attributes of a resource class. *)
Record ResourceClass := {
  MODEL_CLASS : ModelClass;
  API_ACESSOR_NAME : string;
  LIST_REQ_PATH : option string;
  DETAIL_REQ_PATH : option string;
  FIND_REQ_PATH : option string;
  RELATED_ENTITIES_PATH : option string
}.

Inductive object :=
| ODict (d : gmap string json)
| OGateway (api_token : option string) (attrs : gmap string loc)
| OResource (cls : ResourceClass) (api : loc).

(** A call of [requests.request(method, url, params=params, data=data)],
    with the contents of [params] at the time of the call. *)
Record Request := {
  req_method : string;
  req_url : string;
  req_params : gmap string json;
  req_data : json
}.

(** The state a call runs in: the store, the class attribute
    [PipedriveAPI.resource_registry], the transport (what the network
    answers to a request: a response or an exception), the requests made
    so far and the lines logged so far. *)
Record World := {
  heap : gmap loc object;
  resource_registry : gmap string ResourceClass;
  transport : Request → result Response;
  network : list Request;
  logged : list string
}.

Definition set_heap (h : gmap loc object) (w : World) : World :=
  {| heap := h; resource_registry := resource_registry w;
     transport := transport w; network := network w; logged := logged w |}.

Definition set_registry (r : gmap string ResourceClass) (w : World) : World :=
  {| heap := heap w; resource_registry := r;
     transport := transport w; network := network w; logged := logged w |}.

(** Statements run on the world and return a value or raise; what was
    written before an exception stays written. *)
Definition M (A : Type) : Type := World → result A * World.

#[global] Instance M_ret : MRet M := λ A a w, (Ok a, w).
#[global] Instance M_bind : MBind M := λ A B k m w,
  match m w with
  | (Ok a, w') => k a w'
  | (Raise e, w') => (Raise e, w')
  end.

Definition raise {A} (e : exn) : M A := λ w, (Raise e, w).

(** A [result] as a statement: the world stays as it is. *)
Definition lift {A} (r : result A) : M A := λ w, (r, w).

(** [try: body except Exception as err: handler(err)] *)
Definition try_except {A} (body : M A) (handler : exn → M A) : M A := λ w,
  match body w with
  | (Ok a, w') => (Ok a, w')
  | (Raise err, w') => handler err w'
  end.

(** [err.message] *)
Definition message (err : exn) : string :=
  match err with
  | AttributeError msg | TypeError msg | KeyError msg
  | IndexError msg | ModelConversionError msg | TransportError msg => msg
  end.

(** A new object gets a location that is not in use. *)
Definition alloc (o : object) : M loc := λ w,
  let l := fresh (dom (heap w)) in
  (Ok l, set_heap (<[l := o]> (heap w)) w).

(** The object at a location.  Every reference a program holds is in
    the store; the exception is for a location that is not. *)
Definition deref (l : loc) : M object := λ w,
  match heap w !! l with
  | Some o => (Ok o, w)
  | None => (Raise (KeyError "no object at this location"), w)
  end.

(** Truthiness of an object: an empty dict is falsy, every other object
    of the store is truthy. *)
Definition object_truthy (o : object) : bool :=
  match o with
  | ODict d => negb (bool_decide (dom d = ∅))
  | _ => true
  end.

(** [params or {}]: [None] and the empty dict give a new dict. *)
Definition or_new_dict (params : option loc) : M loc :=
  match params with
  | None => alloc (ODict ∅)
  | Some l =>
      o ← deref l;
      if object_truthy o then mret l else alloc (ODict ∅)
  end.

(** [obj[key] = v]: in place, on a dict. *)
Definition dict_setitem (l : loc) (key : string) (v : json) : M () := λ w,
  match heap w !! l with
  | Some (ODict d) => (Ok (), set_heap (<[l := ODict (<[key := v]> d)]> (heap w)) w)
  | _ => (Raise (TypeError "item assignment"), w)
  end.

(** [setattr(obj, name, value)] with a reference for value; the objects
    that take attributes here are the gateways.  The client goes among
    the attached attributes, which is where Python puts it for every name
    outside [gateway_names]. *)
Definition setattr (l : loc) (name : string) (value : loc) : M () := λ w,
  match heap w !! l with
  | Some (OGateway api_token attrs) =>
      (Ok (), set_heap (<[l := OGateway api_token (<[name := value]> attrs)]> (heap w)) w)
  | _ => (Raise (AttributeError name), w)
  end.

(** [self.api_token] *)
Definition getattr_api_token (self : loc) : M (option string) := λ w,
  match heap w !! self with
  | Some (OGateway api_token _) => (Ok api_token, w)
  | _ => (Raise (AttributeError "api_token"), w)
  end.

(** [self.api] *)
Definition getattr_api (self : loc) : M loc := λ w,
  match heap w !! self with
  | Some (OResource _ api) => (Ok api, w)
  | _ => (Raise (AttributeError "api"), w)
  end.

(** The class of a resource client, for its class attributes. *)
Definition class_of (self : loc) : M ResourceClass := λ w,
  match heap w !! self with
  | Some (OResource cls _) => (Ok cls, w)
  | _ => (Raise (AttributeError "class attribute"), w)
  end.

(** [a + b] where [b] may be [None]. *)
Definition str_add (a : string) (b : option string) : M string :=
  match b with
  | Some b => mret (a ++ b)
  | None => raise (TypeError "cannot concatenate")
  end.

(** [requests.request(method, url, params=params, data=data)] *)
Definition requests_request (method url : string) (params : loc) (data : json)
  : M Response := λ w,
  match heap w !! params with
  | Some (ODict d) =>
      let req := {| req_method := method; req_url := url;
                    req_params := d; req_data := data |} in
      (transport w req,
       {| heap := heap w; resource_registry := resource_registry w;
          transport := transport w; network := network w ++ [req];
          logged := logged w |})
  | _ => (Raise (TypeError "params"), w)
  end.

(** [logger.exception(msg)] *)
Definition logger_exception (msg : string) : M () := λ w,
  (Ok (),
   {| heap := heap w; resource_registry := resource_registry w;
      transport := transport w; network := network w;
      logged := logged w ++ [msg] |}).

Definition BASE_URL : string := "https://api.pipedrive.com/v1".

(** [MockResponse()]: a response that was not sent, whose [json()] is
    [{}].  It has no status code, and [ok] holds of it: [raise_for_status]
    compares the status code with 400 and 500, and [None] is below both
    (the file is Python 2: it reads [err.message]). *)
Definition MockResponse : Response := {| ok := true; json_ := JDict ∅ |}.

(** *** PipedriveAPI *)

Definition PipedriveAPI_init (api_token : option string) : M loc :=
  alloc (OGateway api_token ∅).

Definition PipedriveAPI_send_request (self : loc) (method : string)
    (path : option string) (params : option loc) (data : json) : M Response :=
  api_token ← getattr_api_token self;
  match api_token with
  | None | Some "" => mret MockResponse
  | Some token =>
      params ← or_new_dict params;
      dict_setitem params "api_token" (JStr token);;
      url ← str_add BASE_URL path;
      try_except (requests_request method url params data)
        (λ err, logger_exception ("Request failed: " ++ message err);;
                raise err)
  end.

Definition PipedriveAPI_register_resource (resource_class : ResourceClass) : M () :=
  λ w, (Ok (), set_registry (<[API_ACESSOR_NAME resource_class := resource_class]>
                               (resource_registry w)) w).

(** *** BaseResource *)

Definition BaseResource_init (cls : ResourceClass) (api : loc) : M loc :=
  self ← alloc (OResource cls api);
  setattr api (API_ACESSOR_NAME cls) self;;
  mret self.

Definition process_success (self : loc) (response : Response) : M () := mret ().

Definition process_error (self : loc) (response : Response) : M () := mret ().

Definition BaseResource_send_request (self : loc) (method : string)
    (path : option string) (params : option loc) (data : json) : M Response :=
  api ← getattr_api self;
  response ← PipedriveAPI_send_request api method path params data;
  (if ok response
   then process_success self response
   else process_error self response);;
  mret response.

Definition BaseResource_create (self : loc) (params : option loc) (data : json)
  : M Response :=
  cls ← class_of self;
  BaseResource_send_request self "POST" (LIST_REQ_PATH cls) params data.

Definition BaseResource_list (self : loc) (params : option loc) (data : json)
  : M Response :=
  cls ← class_of self;
  BaseResource_send_request self "GET" (LIST_REQ_PATH cls) params data.

Definition BaseResource_find (self : loc) (term : json) (params : option loc)
    (data : json) : M Response :=
  params ← or_new_dict params;
  dict_setitem params "term" term;;
  cls ← class_of self;
  BaseResource_send_request self "GET" (FIND_REQ_PATH cls) (Some params) data.

(** [PipedriveAPI.resource_registry[item]] *)
Definition registry_getitem (item : string) : M ResourceClass := λ w,
  match resource_registry w !! item with
  | Some resource_class => (Ok resource_class, w)
  | None => (Raise (KeyError item), w)
  end.

(** [PipedriveAPI.__getattr__]: Python calls it for a name that the
    normal attribute lookup does not find. *)
Definition PipedriveAPI_getattr (self : loc) (item : string) : M loc :=
  try_except
    (resource_class ← registry_getitem item;
     BaseResource_init resource_class self)
    (λ err, match err with
            | KeyError _ =>
                raise (AttributeError "No resource is registered under that name.")
            | _ => raise err
            end).

(** *** Projection of a dict held by reference

    [dict_to_model] again, with the store in view: [deepcopy] allocates
    the copy, the comprehension allocates [safe_data], and the model is
    constructed from what [safe_data] holds. *)
Module ByReference.

Definition deepcopy (data : loc) : M loc :=
  o ← deref data;
  alloc o.

Definition keys (data : loc) : M (gset string) :=
  o ← deref data;
  match o with
  | ODict d => mret (dom d)
  | _ => raise (AttributeError "keys")
  end.

Definition getitem (data : loc) (key : string) : M json :=
  o ← deref data;
  match o with
  | ODict d =>
      match d !! key with
      | Some v => mret v
      | None => raise (KeyError key)
      end
  | _ => raise (TypeError "indices")
  end.

Fixpoint comprehension {A B} (f : A → M B) (xs : list A) : M (list B) :=
  match xs with
  | [] => mret []
  | x :: xs' => y ← f x; ys ← comprehension f xs'; mret (y :: ys)
  end.

Definition dict_comprehension (data : loc) (safe_keys : list string) : M loc :=
  kvs ← comprehension (λ key, v ← getitem data key; mret (key, v)) safe_keys;
  alloc (ODict (list_to_map kvs)).

(** [model_class(raw_data=safe_data)] *)
Definition construct (model_class : ModelClass) (safe_data : loc) : M Model :=
  o ← deref safe_data;
  match o with
  | ODict d => lift (construct model_class d)
  | _ => raise (TypeError "raw_data")
  end.

Definition dict_to_model (data : option loc) (model_class : ModelClass)
  : M (option Model) :=
  match data with
  | None => mret None
  | Some data =>
      data ← deepcopy data;
      let model_keys := model_keys model_class in
      ks ← keys data;
      let safe_keys := ks ∩ model_keys in
      safe_data ← dict_comprehension data (elements safe_keys);
      m ← construct model_class safe_data;
      mret (Some m)
  end.

End ByReference.

(** ** The specification's wording, for comparison *)

(** The known keys as the specification words them: each field's
    internal name together with its declared serialized name. *)
Definition spec_known_keys (model_class : ModelClass) : gset string :=
  dom (fields model_class)
  ∪ list_to_set (omap (λ p : string * FieldType, serialized_name p.2)
                      (map_to_list (fields model_class))).

(** The pagination block of a document: the object under [pagination]
    of the object under [additional_data]. *)
Definition pagination_block (doc : gmap string json) : option (gmap string json) :=
  match doc !! "additional_data" with
  | Some (JDict additional_data) =>
      match additional_data !! "pagination" with
      | Some (JDict pagination) => Some pagination
      | _ => None
      end
  | _ => None
  end.

(** The wire format of a response document: [data], when present, is
    null or a list of documents (objects or nulls), and [additional_data],
    when present, is an object whose [pagination], when present, is an
    object. *)
Definition is_document (item : json) : bool :=
  match item with
  | JNull | JDict _ => true
  | _ => false
  end.

Definition data_wire_format (doc : gmap string json) : bool :=
  match doc !! "data" with
  | None | Some JNull => true
  | Some (JList l) => forallb is_document l
  | Some _ => false
  end.

Definition additional_data_wire_format (doc : gmap string json) : bool :=
  match doc !! "additional_data" with
  | None => true
  | Some (JDict additional_data) =>
      match additional_data !! "pagination" with
      | None | Some (JDict _) => true
      | Some _ => false
      end
  | Some _ => false
  end.

(** The entries of [data] that are objects convert: the constructor of
    the class takes each of them. *)
Definition item_converts (model_class : ModelClass) (item : json) : bool :=
  match item with
  | JDict d => converts model_class d
  | _ => true
  end.

Definition data_converts (model_class : ModelClass) (doc : gmap string json)
  : bool :=
  match doc !! "data" with
  | Some (JList l) => forallb (item_converts model_class) l
  | _ => true
  end.

(** The document a collection is built from. *)
Definition decoded (response : response_arg) : json :=
  match response with
  | FromResponse r => json_ r
  | FromDocument doc => doc
  end.

(** The mapping a caller passes as [params]: none, or the contents of
    the dict that the reference names. *)
Definition params_dict (w : World) (params : option loc) : option (gmap string json) :=
  match params with
  | None => Some ∅
  | Some l =>
      match heap w !! l with
      | Some (ODict d) => Some d
      | _ => None
      end
  end.

(** ** Example inputs *)

(** Field types for the examples: one that takes integers and one that
    takes strings. *)
Definition integers (v : json) : option json :=
  match v with
  | JInt n => Some (JInt n)
  | _ => None
  end.

Definition strings (v : json) : option json :=
  match v with
  | JStr s => Some (JStr s)
  | _ => None
  end.

(** A model with the fields [id] and [name], the second of which is
    serialized as [Name]. *)
Definition person_model : ModelClass :=
  {| fields := {[ "id" := {| serialized_name := None; to_native := integers |};
                  "name" := {| serialized_name := Some "Name";
                               to_native := strings |} ]} |}.

Definition ann : gmap string json :=
  {[ "id" := JInt 1; "name" := JStr "Ann"; "Name" := JStr "Ann B"; "secret" := JStr "x" ]}.

Definition ann_internal : gmap string json :=
  {[ "name" := JStr "Ann" ]}.

Definition page : gmap string json :=
  {[ "data" := JList [JDict ann; JNull];
     "success" := JBool true;
     "additional_data" :=
       JDict {[ "pagination" :=
                  JDict {[ "start" := JInt 0; "next_start" := JInt 100;
                           "more_items_in_collection" := JBool true ]} ]} ]}.

Definition no_page : gmap string json :=
  {[ "success" := JBool true ]}.

(** The scenario of the specification: one person with a field that the
    schema does not know, and a pagination block. *)
Definition contact_model : ModelClass :=
  {| fields := {[ "id" := {| serialized_name := None; to_native := integers |};
                  "name" := {| serialized_name := None; to_native := strings |} ]} |}.

Definition scenario : gmap string json :=
  {[ "data" := JList [JDict {[ "id" := JInt 1; "name" := JStr "Ann";
                               "secret" := JStr "x" ]}];
     "success" := JBool true;
     "additional_data" :=
       JDict {[ "pagination" :=
                  JDict {[ "start" := JInt 0; "limit" := JInt 100;
                           "next_start" := JInt 100;
                           "more_items_in_collection" := JBool true ]} ]} ]}.

Definition deals : ResourceClass :=
  {| MODEL_CLASS := person_model; API_ACESSOR_NAME := "deals";
     LIST_REQ_PATH := Some "/deals"; DETAIL_REQ_PATH := Some "/deals/{id}";
     FIND_REQ_PATH := Some "/deals/find"; RELATED_ENTITIES_PATH := None |}.

(** A world with a gateway that has a token (1), an empty dict (2), a
    dict with one entry (3), a gateway without a token (4) and a client
    of the first gateway (5). *)
Definition world0 : World :=
  {| heap := {[ 1%positive := OGateway (Some "tok") {[ "deals" := 5%positive ]};
                2%positive := ODict ∅;
                3%positive := ODict {[ "a" := JInt 1 ]};
                4%positive := OGateway None ∅;
                5%positive := OResource deals 1%positive ]};
     resource_registry := {[ "deals" := deals ]};
     transport := λ _, Ok {| ok := true; json_ := JDict page |};
     network := [];
     logged := [] |}.

(** ** The resource verbs that fill a path template

    [str.format] is Python's; the verbs are stated for any formatter
    [str_format], which takes the template and the keyword arguments and
    returns the path or raises (a field of the template that is not among
    the keywords is a [KeyError]). *)

Section templates.

Variable str_format : string → list (string * json) → result string.

(** [template.format(id=..., ...)] where the template is a class
    attribute that may be [None], which has no [format]. *)
Definition template_format (template : option string)
    (kwargs : list (string * json)) : M string :=
  match template with
  | Some t => lift (str_format t kwargs)
  | None => raise (AttributeError "format")
  end.

Definition BaseResource_delete (self : loc) (resource_ids : json)
    (params : option loc) (data : json) : M Response :=
  cls ← class_of self;
  url ← template_format (DETAIL_REQ_PATH cls) [("id", resource_ids)];
  BaseResource_send_request self "DELETE" (Some url) params data.

Definition BaseResource_update (self : loc) (resource_ids : json)
    (params : option loc) (data : json) : M Response :=
  cls ← class_of self;
  url ← template_format (DETAIL_REQ_PATH cls) [("id", resource_ids)];
  BaseResource_send_request self "PUT" (Some url) params data.

Definition BaseResource_detail (self : loc) (resource_ids : json)
    (params : option loc) (data : json) : M Response :=
  cls ← class_of self;
  url ← template_format (DETAIL_REQ_PATH cls) [("id", resource_ids)];
  BaseResource_send_request self "GET" (Some url) params data.

Definition BaseResource_related_entities (self : loc) (resource_ids : json)
    (entity_name : json) (entity_class : ModelClass)
    (params : option loc) (data : json) : M CollectionResponse.t :=
  cls ← class_of self;
  entity_path ← template_format (RELATED_ENTITIES_PATH cls)
                  [("id", resource_ids); ("entity", entity_name)];
  response ← BaseResource_send_request self "GET" (Some entity_path) params data;
  lift (CollectionResponse.__init__ (FromResponse response) entity_class).

End templates.

(** ** When a collection can be built

    What the constructor accepts under [data]: nothing, a falsy value, or
    a list of documents (each of which has to convert, [data_converts]);
    and under [additional_data]: nothing, an object
    whose [pagination] is absent or an object, or a list or a string in
    which [pagination] does not occur. *)
Definition data_accepted (doc : gmap string json) : bool :=
  match doc !! "data" with
  | None => true
  | Some v =>
      if truthy v
      then match v with
           | JList l => forallb is_document l
           | _ => false
           end
      else true
  end.

Definition additional_data_accepted (doc : gmap string json) : bool :=
  match doc !! "additional_data" with
  | None => true
  | Some (JDict additional_data) =>
      match additional_data !! "pagination" with
      | None | Some (JDict _) => true
      | Some _ => false
      end
  | Some (JList l) =>
      negb (existsb (λ v, match v with
                          | JStr s => String.eqb s "pagination"
                          | _ => false
                          end) l)
  | Some (JStr s) => negb (bool_decide (is_Some (String.index 0 "pagination" s)))
  | Some _ => false
  end.

(** ** More example inputs *)

(** The document of the mock response. *)
Definition empty_document : gmap string json := ∅.

(** A document with two null entries and the collection it gives. *)
Definition two_nulls : gmap string json :=
  {[ "data" := JList [JNull; JNull] ]}.

Definition two_nulls_collection : CollectionResponse.t :=
  {| CollectionResponse.items := [None; None];
     CollectionResponse.success := JBool false;
     CollectionResponse.start := JNull;
     CollectionResponse.limit := JNull;
     CollectionResponse.next_start := JNull;
     CollectionResponse.more_items_in_collection := JNull |}.

(** The collection that the mock response gives. *)
Definition empty_collection : CollectionResponse.t :=
  {| CollectionResponse.items := [];
     CollectionResponse.success := JBool false;
     CollectionResponse.start := JNull;
     CollectionResponse.limit := JNull;
     CollectionResponse.next_start := JNull;
     CollectionResponse.more_items_in_collection := JNull |}.



Definition null_additional_data : gmap string json :=
  {[ "additional_data" := JNull ]}.

Definition null_pagination : gmap string json :=
  {[ "additional_data" := JDict {[ "pagination" := JNull ]} ]}.

(** A formatter for the examples: it knows two templates. *)
Definition example_format (template : string) (kwargs : list (string * json))
  : result string :=
  match kwargs with
  | [("id", JInt 7)] =>
      if String.eqb template "/deals/{id}" then Ok "/deals/7"
      else Raise (KeyError "id")
  | [("id", JInt 7); ("entity", JStr "persons")] =>
      if String.eqb template "/deals/{id}/{entity}" then Ok "/deals/7/persons"
      else Raise (KeyError "entity")
  | _ => Raise (KeyError "id")
  end.

(** The names that are no plain attribute of a gateway: the two that
    the code reads on the instance, which an attribute set under that name
    would replace, and the three that an instance does not let be set to a
    client. *)
Definition gateway_names : list string :=
  ["api_token"; "send_request"; "__class__"; "__dict__"; "__weakref__"].

(** A document whose entry does not convert. *)
Definition ill_typed : gmap string json :=
  {[ "data" := JList [JDict {[ "id" := JStr "abc" ]}] ]}.

(** A resource class with every path, and one with none (the class
    attributes of [BaseResource] itself). *)
Definition deals_full : ResourceClass :=
  {| MODEL_CLASS := person_model; API_ACESSOR_NAME := "deals";
     LIST_REQ_PATH := Some "/deals"; DETAIL_REQ_PATH := Some "/deals/{id}";
     FIND_REQ_PATH := Some "/deals/find";
     RELATED_ENTITIES_PATH := Some "/deals/{id}/{entity}" |}.

Definition base_resource : ResourceClass :=
  {| MODEL_CLASS := {| fields := ∅ |}; API_ACESSOR_NAME := "";
     LIST_REQ_PATH := None; DETAIL_REQ_PATH := None;
     FIND_REQ_PATH := None; RELATED_ENTITIES_PATH := None |}.

(** A world like [world0], with clients of both classes on the gateway
    that has a token (5, 6) and a client on the gateway without one (7),
    and a transport that fails. *)
Definition world1 : World :=
  {| heap := {[ 1%positive := OGateway (Some "tok") {[ "deals" := 5%positive ]};
                2%positive := ODict ∅;
                3%positive := ODict {[ "a" := JInt 1 ]};
                4%positive := OGateway None {[ "deals" := 7%positive ]};
                5%positive := OResource deals_full 1%positive;
                6%positive := OResource base_resource 1%positive;
                7%positive := OResource deals_full 4%positive ]};
     resource_registry := {[ "deals" := deals_full ]};
     transport := λ _, Ok {| ok := true; json_ := JDict page |};
     network := [];
     logged := [] |}.

Definition world_down : World :=
  {| heap := heap world1;
     resource_registry := resource_registry world1;
     transport := λ _, Raise (TransportError "connection refused");
     network := [];
     logged := [] |}.

(** * Properties *)

(** ** The exception monad *)

Lemma bind_Ok {A B} (r : result A) (k : A → result B) (a : A) :
  r = Ok a → (r ≫= k) = k a.
Proof. by intros ->. Qed.

Lemma bind_Ok_inv {A B} (r : result A) (k : A → result B) (b : B) :
  (r ≫= k) = Ok b → ∃ a, r = Ok a ∧ k a = Ok b.
Proof. destruct r as [a|e]; [by exists a | done]. Qed.

Ltac inv_bind H :=
  let a := fresh "a" in
  let Ha := fresh "H" a in
  apply bind_Ok_inv in H as (a & Ha & H).

Lemma comprehension_Forall2 {A B} (f : A → result B) xs ys :
  comprehension f xs = Ok ys ↔ Forall2 (λ x y, f x = Ok y) xs ys.
Proof.
  revert ys. induction xs as [|x xs IH]; intros ys; simpl.
  - split.
    + intros [= <-]. constructor.
    + by inversion 1.
  - split.
    + intros H. inv_bind H. inv_bind H. injection H as <-.
      constructor; [done | by apply IH].
    + inversion 1 as [|? y ? ys' Hy Hys]; subst.
      rewrite (bind_Ok _ _ _ Hy). apply IH in Hys.
      by rewrite (bind_Ok _ _ _ Hys).
Qed.

Lemma comprehension_fmap {A B} (f : A → result B) (g : A → B) xs :
  (∀ x, x ∈ xs → f x = Ok (g x)) → comprehension f xs = Ok (g <$> xs).
Proof.
  intros Hf. apply comprehension_Forall2.
  apply Forall2_fmap_r, Forall_Forall2_diag, Forall_forall. exact Hf.
Qed.

(** ** Record projection *)

Lemma elem_of_model_keys (S : ModelClass) (k : string) :
  k ∈ model_keys S ↔
  ∃ field_name field, fields S !! field_name = Some field
                      ∧ k = str_or (serialized_name field) field_name.
Proof.
  unfold model_keys. rewrite elem_of_list_to_set, list_elem_of_fmap. split.
  - intros ([n f] & -> & Hin). apply elem_of_map_to_list in Hin. by exists n, f.
  - intros (n & f & Hf & ->). exists (n, f). split; [done|].
    by apply elem_of_map_to_list.
Qed.

(** The dict that the comprehension builds has the entries of [d] whose
    key is in [X]. *)
Lemma safe_data_filter (d : gmap string json) (X : gset string) :
  X ⊆ dom d →
  list_to_map ((λ key, (key, d !!! key)) <$> elements X)
  = filter (λ kv : string * json, kv.1 ∈ X) d.
Proof.
  intros HX. apply map_eq. intros k. apply option_eq. intros v.
  rewrite map_lookup_filter_Some. simpl.
  rewrite <- elem_of_list_to_map.
  - rewrite list_elem_of_fmap. split.
    + intros (k' & [= -> ->] & Hk). apply elem_of_elements in Hk.
      split; [|done]. apply lookup_lookup_total, elem_of_dom. by apply HX.
    + intros [Hv Hk]. exists k. split.
      * by rewrite (lookup_total_correct _ _ _ Hv).
      * by apply elem_of_elements.
  - rewrite <- list_fmap_compose. simpl. rewrite list_fmap_id.
    apply NoDup_elements.
Qed.

Lemma dict_comprehension_filter (d : gmap string json) (X : gset string) :
  X ⊆ dom d →
  dict_comprehension (JDict d) (elements X) = Ok (filter (λ kv, kv.1 ∈ X) d).
Proof.
  intros HX. unfold dict_comprehension.
  rewrite (comprehension_fmap _ (λ key, (key, d !!! key))).
  - simpl. by rewrite safe_data_filter.
  - intros k Hk. apply elem_of_elements, HX, elem_of_dom in Hk as [v Hv].
    simpl. rewrite Hv. simpl. by rewrite (lookup_total_correct _ _ _ Hv).
Qed.

(** A model key keeps its entry in the safe data. *)
Lemma lookup_safe_data (D : gmap string json) (S : ModelClass) (k : string) :
  k ∈ model_keys S →
  filter (λ kv : string * json, kv.1 ∈ dom D ∩ model_keys S) D !! k = D !! k.
Proof.
  intros Hk. apply option_eq. intros v. rewrite map_lookup_filter_Some. simpl.
  split; [by intros [? _]|]. intros Hv. split; [done|].
  apply elem_of_intersection. split; [|done]. apply elem_of_dom. by exists v.
Qed.

Lemma dom_safe_data (D : gmap string json) (S : ModelClass) :
  dom (filter (λ kv : string * json, kv.1 ∈ dom D ∩ model_keys S) D)
  = dom D ∩ model_keys S.
Proof.
  apply set_eq. intros k.
  rewrite elem_of_dom, elem_of_intersection, elem_of_dom. split.
  - intros [v Hv]. apply map_lookup_filter_Some in Hv as [Hv Hk]. simpl in Hk.
    split; [by exists v|]. by apply elem_of_intersection in Hk as [_ ?].
  - intros [[v Hv] Hk]. exists v. by rewrite lookup_safe_data.
Qed.

(** The constructor reads the raw data under the model keys only. *)
Lemma converts_ext (S : ModelClass) (d d' : gmap string json) :
  (∀ k, k ∈ model_keys S → d !! k = d' !! k) → converts S d = converts S d'.
Proof.
  intros Heq. unfold converts.
  assert (Hin : ∀ p, p ∈ map_to_list (fields S) →
                     field_converts d p = field_converts d' p).
  { intros [n f] Hp. apply elem_of_map_to_list in Hp. unfold field_converts.
    rewrite Heq; [done|]. apply elem_of_model_keys. by exists n, f. }
  induction (map_to_list (fields S)) as [|p l IH]; [done|]. simpl.
  rewrite Hin by left. rewrite IH; [done|]. intros q Hq. apply Hin. by right.
Qed.

Lemma converts_safe_data (D : gmap string json) (S : ModelClass) :
  converts S (filter (λ kv : string * json, kv.1 ∈ dom D ∩ model_keys S) D)
  = converts S D.
Proof. apply converts_ext. intros k Hk. by apply lookup_safe_data. Qed.

Lemma converts_empty (S : ModelClass) : converts S ∅ = true.
Proof.
  unfold converts. apply forallb_forall. intros p _.
  unfold field_converts. by rewrite lookup_empty.
Qed.

(** The safe data has no key that the constructor does not know. *)
Lemma known_safe_data (D : gmap string json) (S : ModelClass) :
  known S (filter (λ kv : string * json, kv.1 ∈ dom D ∩ model_keys S) D) = true.
Proof.
  unfold known. apply bool_decide_eq_true. rewrite dom_safe_data.
  intros k [_ Hk]%elem_of_intersection. apply elem_of_union. by right.
Qed.

Lemma construct_safe_data (D : gmap string json) (S : ModelClass) :
  construct S (filter (λ kv : string * json, kv.1 ∈ dom D ∩ model_keys S) D)
  = if converts S D
    then Ok {| model_class_of := S;
               raw_data := filter (λ kv, kv.1 ∈ dom D ∩ model_keys S) D |}
    else Raise (ModelConversionError "conversion").
Proof.
  unfold construct. by rewrite known_safe_data, converts_safe_data.
Qed.

(** What projection computes on a dict: the constructor has the entries
    of the document whose key is a model key. *)
Lemma dict_to_model_dict (D : gmap string json) (S : ModelClass) :
  dict_to_model (JDict D) S =
  if converts S D
  then Ok (Some {| model_class_of := S;
                   raw_data := filter (λ kv, kv.1 ∈ dom D ∩ model_keys S) D |})
  else Raise (ModelConversionError "conversion").
Proof.
  unfold dict_to_model, deepcopy. simpl.
  rewrite dict_comprehension_filter by apply intersection_subseteq_l.
  simpl. rewrite construct_safe_data. by destruct (converts S D).
Qed.

Lemma dict_to_model_converts (D : gmap string json) (S : ModelClass) :
  converts S D = true →
  dict_to_model (JDict D) S =
  Ok (Some {| model_class_of := S;
              raw_data := filter (λ kv, kv.1 ∈ dom D ∩ model_keys S) D |}).
Proof. intros H. by rewrite dict_to_model_dict, H. Qed.

Lemma dict_to_model_Ok_inv (D : gmap string json) (S : ModelClass) r :
  dict_to_model (JDict D) S = Ok r →
  converts S D = true
  ∧ r = Some {| model_class_of := S;
                raw_data := filter (λ kv, kv.1 ∈ dom D ∩ model_keys S) D |}.
Proof.
  rewrite dict_to_model_dict. destruct (converts S D); [|done].
  by intros [= <-].
Qed.

(** C1, as amended.  Every model that the projection of a document [D]
    returns has as raw data exactly the keys of [D] that are model keys,
    each with the value [D] gives it; a model key is, for each field, its
    declared serialized name when that is neither [None] nor empty, and its
    field name otherwise.  Keys of [D] that are no model key are absent.
    The projection returns a model when the values of [D] under the model
    keys convert, and raises the conversion error of the constructor when
    one does not; it never returns [None]. *)
Theorem dict_to_model_keys (D : gmap string json) (S : ModelClass) :
  (converts S D = true → ∃ m, dict_to_model (JDict D) S = Ok (Some m))
  ∧ (converts S D = false →
     ∃ msg, dict_to_model (JDict D) S = Raise (ModelConversionError msg))
  ∧ (∀ r, dict_to_model (JDict D) S = Ok r →
       ∃ m, r = Some m
            ∧ model_class_of m = S
            ∧ dom (raw_data m) = dom D ∩ model_keys S
            ∧ (∀ k v, raw_data m !! k = Some v → D !! k = Some v))
  ∧ (∀ k, k ∈ model_keys S ↔
          ∃ field_name field,
            fields S !! field_name = Some field
            ∧ k = str_or (serialized_name field) field_name).
Proof.
  split; [|split; [|split]].
  - intros H. eexists. by apply dict_to_model_converts.
  - intros H. eexists. by rewrite dict_to_model_dict, H.
  - intros r [_ ->]%dict_to_model_Ok_inv. eexists. split; [done|]. simpl.
    split; [done|]. split; [apply dom_safe_data|].
    intros k v Hv. by apply map_lookup_filter_Some in Hv as [Hv _].
  - apply elem_of_model_keys.
Qed.

Lemma dict_to_model_keys_witness :
  (∃ m, dict_to_model (JDict ann) person_model = Ok (Some m)
        ∧ dom (raw_data m) = dom ann ∩ model_keys person_model)
  ∧ ∃ msg, dict_to_model (JDict {[ "id" := JStr "abc" ]}) person_model
           = Raise (ModelConversionError msg).
Proof.
  split.
  - destruct (dict_to_model_keys ann person_model) as (Hok & _ & Hkeys & _).
    destruct (Hok ltac:(vm_compute; reflexivity)) as [m Hm].
    exists m. split; [exact Hm|].
    destruct (Hkeys _ Hm) as (m' & Heq & _ & Hdom & _).
    injection Heq as <-. exact Hdom.
  - destruct (dict_to_model_keys {[ "id" := JStr "abc" ]} person_model)
      as (_ & Hraise & _).
    apply Hraise. vm_compute. reflexivity.
Defined.

(** C1 as the specification states it fails: with a field [name] whose
    serialized name is [Name], the key [name] of a document is in the
    union of field names and serialized names, and the projection drops it. *)
Lemma dict_to_model_union_keys_counterexample :
  ∃ m, dict_to_model (JDict ann_internal) person_model = Ok (Some m)
       ∧ "name" ∈ (dom ann_internal ∩ spec_known_keys person_model)
       ∧ ("name" ∉ dom (raw_data m))
       ∧ dom (raw_data m) ≠ dom ann_internal ∩ spec_known_keys person_model.
Proof.
  eexists. split; [by apply dict_to_model_converts|]. simpl.
  assert (Hin : "name" ∈ dom ann_internal ∩ spec_known_keys person_model)
    by compute_done.
  assert (Hout : "name" ∉ dom (filter (λ kv : string * json,
                     kv.1 ∈ dom ann_internal ∩ model_keys person_model) ann_internal)).
  { compute_done. }
  split; [done|]. split; [done|].
  intros Heq. apply Hout. rewrite <- Heq in Hin. exact Hin.
Qed.

(** C2, as amended.  The projection of [None] is [None]; the projection
    of an empty document is a model, whose raw data is empty. *)
Theorem dict_to_model_null_and_empty (S : ModelClass) :
  dict_to_model JNull S = Ok None
  ∧ dict_to_model (JDict ∅) S
    = Ok (Some {| model_class_of := S; raw_data := ∅ |}).
Proof.
  split; [done|].
  by rewrite dict_to_model_dict, converts_empty, map_filter_empty.
Qed.

(** C2 as the specification states it fails: the projection of an empty
    document is not [None]. *)
Lemma dict_to_model_empty_counterexample :
  dict_to_model (JDict ∅) person_model ≠ Ok None.
Proof. rewrite dict_to_model_dict, converts_empty. discriminate. Qed.

(** For a schema in which no field declares a serialized name, the model
    keys are the field names, as in the specification's wording. *)
Lemma model_keys_field_names (S : ModelClass) :
  (∀ field_name field, fields S !! field_name = Some field →
                       serialized_name field = None) →
  model_keys S = dom (fields S) ∧ spec_known_keys S = dom (fields S).
Proof.
  intros Hnone. split.
  - apply set_eq. intros k. rewrite elem_of_model_keys, elem_of_dom. split.
    + intros (n & f & Hf & ->). rewrite (Hnone n f Hf). by exists f.
    + intros [f Hf]. exists k, f. by rewrite (Hnone k f Hf).
  - unfold spec_known_keys. apply set_eq. intros k.
    rewrite elem_of_union, elem_of_list_to_set, list_elem_of_omap.
    split; [|by left]. intros [Hk | ([n f] & Hin & Hs)]; [done|].
    apply elem_of_map_to_list in Hin. simpl in Hs.
    by rewrite (Hnone n f Hin) in Hs.
Qed.


(** ** Paginated collections *)

Ltac inv_binds H := repeat inv_bind H.

(** What the constructor computes, once the document is decoded: the
    projected items, the success flag and the cursor. *)
Lemma init_Ok_inv src doc S c :
  decoded src = JDict doc →
  CollectionResponse.__init__ src S = Ok c →
  ∃ its,
    iterate (py_or (default (JList []) (doc !! "data")) (JList [])) = Ok its
    ∧ comprehension (λ item, dict_to_model item S) its
      = Ok (CollectionResponse.items c)
    ∧ CollectionResponse.success c = default (JBool false) (doc !! "success")
    ∧ match pagination_block doc with
      | Some p =>
          CollectionResponse.start c = default (JInt 0) (p !! "start")
          ∧ CollectionResponse.limit c = default (JInt 100) (p !! "limit")
          ∧ CollectionResponse.next_start c = default (JInt 0) (p !! "next_start")
          ∧ CollectionResponse.more_items_in_collection c
            = default (JBool false) (p !! "more_items_in_collection")
      | None =>
          CollectionResponse.start c = JNull
          ∧ CollectionResponse.limit c = JNull
          ∧ CollectionResponse.next_start c = JNull
          ∧ CollectionResponse.more_items_in_collection c = JNull
      end.
Proof.
  intros Hdoc Hc. unfold CollectionResponse.__init__ in Hc.
  replace (match src with FromResponse r => json_ r | FromDocument d => d end)
    with (JDict doc) in Hc by (by destruct src).
  inv_binds Hc. cbn in Ha, Ha2, Ha3. simplify_eq.
  exists a0. split; [done|]. split; [|split].
  - by destruct a4; inv_binds Hc; simplify_eq.
  - by destruct a4; inv_binds Hc; simplify_eq.
  - unfold pagination_block.
    cbn in Ha4, Hc.
    destruct (doc !! "additional_data") as [v|] eqn:Had;
      rewrite ?Had in Ha4, Hc; cbn in Ha4, Hc; [|by simplify_eq].
    destruct v as [| | |s|l|ad]; cbn in Ha4, Hc; try discriminate.
    1,2: destruct a4; cbn in Hc; [discriminate | by simplify_eq].
    injection Ha4 as <-.
    destruct (ad !! "pagination") as [pg|] eqn:Hpg;
      rewrite ?Hpg in Hc; cbn in Hc; [|by simplify_eq].
    destruct pg; cbn in Hc; try discriminate. by simplify_eq.
Qed.

Lemma comprehension_documents S l :
  forallb is_document l = true →
  forallb (item_converts S) l = true →
  ∃ ms, comprehension (λ item, dict_to_model item S) l = Ok ms.
Proof.
  induction l as [|item l IH]; simpl; [by eexists|].
  intros [Hitem Hl]%andb_prop [Hconv Hlc]%andb_prop.
  destruct (IH Hl Hlc) as [ms Hms].
  destruct item; try discriminate.
  - exists (None :: ms). cbn. by rewrite Hms.
  - eexists. rewrite (dict_to_model_converts _ _ Hconv). cbn. by rewrite Hms.
Qed.

(** A document in the wire format whose entries convert gives a
    collection. *)
Lemma init_total src doc S :
  decoded src = JDict doc →
  data_wire_format doc = true →
  data_converts S doc = true →
  additional_data_wire_format doc = true →
  ∃ c, CollectionResponse.__init__ src S = Ok c.
Proof.
  intros Hdoc Hdata Hconv Had. unfold CollectionResponse.__init__.
  replace (match src with FromResponse r => json_ r | FromDocument d => d end)
    with (JDict doc) by (by destruct src).
  unfold data_wire_format in Hdata. unfold data_converts in Hconv.
  unfold additional_data_wire_format in Had.
  cbn -[iterate py_or comprehension].
  assert (∃ l, iterate (py_or (default (JList []) (doc !! "data")) (JList [])) = Ok l
               ∧ forallb is_document l = true
               ∧ forallb (item_converts S) l = true) as (l & -> & Hl & Hlc).
  { destruct (doc !! "data") as [[| | | |l|]|]; try discriminate;
      try (by exists []).
    exists l. split; [by destruct l | done]. }
  cbn -[comprehension].
  destruct (comprehension_documents S l Hl Hlc) as [ms ->]. cbn.
  destruct (doc !! "additional_data") as [[| | | | |ad]|]; try discriminate; cbn;
    [|by eexists].
  destruct (ad !! "pagination") as [[| | | | |pg]|]; try discriminate; cbn;
    by eexists.
Qed.

Lemma iterate_data_list (doc : gmap string json) ds :
  doc !! "data" = Some (JList ds) →
  iterate (py_or (default (JList []) (doc !! "data")) (JList [])) = Ok ds.
Proof. intros ->. by destruct ds. Qed.

Lemma iterate_data_absent (doc : gmap string json) :
  doc !! "data" = None ∨ doc !! "data" = Some JNull →
  iterate (py_or (default (JList []) (doc !! "data")) (JList [])) = Ok [].
Proof. by intros [-> | ->]. Qed.

(** Strings are not documents: a comprehension over strings that does
    not raise has nothing to project. *)
Lemma comprehension_strings S (its : list json) ms :
  Forall (λ item, ∃ s, item = JStr s) its →
  comprehension (λ item, dict_to_model item S) its = Ok ms → its = [].
Proof. destruct 1 as [|? ? [s ->]]; [done|]. discriminate. Qed.

(** The items are not empty exactly when [data] is a list that is not
    empty. *)
Lemma items_nonempty (doc : gmap string json) S its ms :
  iterate (py_or (default (JList []) (doc !! "data")) (JList [])) = Ok its →
  comprehension (λ item, dict_to_model item S) its = Ok ms →
  ms ≠ [] ↔ ∃ ds, doc !! "data" = Some (JList ds) ∧ ds ≠ [].
Proof.
  intros Hits Hms.
  assert (Hnil : its = [] → ms = [])
    by (intros ->; by injection Hms).
  assert (Hstr : Forall (λ item, ∃ s, item = JStr s) its → ms = [])
    by (intros H; eapply Hnil, comprehension_strings; eauto).
  destruct (doc !! "data") as [v|] eqn:Hdata; cbn in Hits.
  - destruct v as [|b|n|s|l|d]; unfold py_or in Hits; cbn in Hits.
    + injection Hits as <-. rewrite Hnil by done. split; [done|].
      by intros (? & [=] & _).
    + destruct b; [done|]. injection Hits as <-. rewrite Hnil by done.
      split; [done|]. by intros (? & [=] & _).
    + destruct (n =? 0)%Z; [|done]. injection Hits as <-. rewrite Hnil by done.
      split; [done|]. by intros (? & [=] & _).
    + rewrite Hstr.
      * split; [done|]. by intros (? & [=] & _).
      * destruct (String.eqb s ""); cbn in Hits; injection Hits as <-;
          [constructor|]. apply Forall_fmap, Forall_true. intros c. by eexists.
    + assert (its = l) as -> by (destruct l; by injection Hits).
      split.
      * intros Hne. exists l. split; [done|]. intros ->. by rewrite Hnil in Hne.
      * intros (ds & [= <-] & Hne) ->.
        apply comprehension_Forall2 in Hms. by inversion Hms.
    + rewrite Hstr.
      * split; [done|]. by intros (? & [=] & _).
      * destruct (bool_decide (dom d = ∅)); cbn in Hits; injection Hits as <-;
          [constructor|]. apply Forall_fmap, Forall_true. intros c. by eexists.
  - injection Hits as <-. rewrite Hnil by done. split; [done|].
    by intros (? & [=] & _).
Qed.

(** C4.  A document in the wire format whose entries convert gives a
    collection.  In every collection built from a document: when the document has an
    [additional_data] object that has a [pagination] object, the four
    cursor fields are what that object holds under [start], [limit],
    [next_start] and [more_items_in_collection], with 0, 100, 0 and false
    for a key that is missing; when it has no such block, the four cursor
    fields are unset. *)
Theorem CollectionResponse_pagination
    (src : response_arg) (doc : gmap string json) (S : ModelClass) :
  decoded src = JDict doc →
  (data_wire_format doc = true → data_converts S doc = true →
   additional_data_wire_format doc = true →
   ∃ c, CollectionResponse.__init__ src S = Ok c)
  ∧ ∀ c, CollectionResponse.__init__ src S = Ok c →
      match pagination_block doc with
      | Some pagination =>
          CollectionResponse.start c = default (JInt 0) (pagination !! "start")
          ∧ CollectionResponse.limit c = default (JInt 100) (pagination !! "limit")
          ∧ CollectionResponse.next_start c
            = default (JInt 0) (pagination !! "next_start")
          ∧ CollectionResponse.more_items_in_collection c
            = default (JBool false) (pagination !! "more_items_in_collection")
      | None =>
          CollectionResponse.start c = JNull
          ∧ CollectionResponse.limit c = JNull
          ∧ CollectionResponse.next_start c = JNull
          ∧ CollectionResponse.more_items_in_collection c = JNull
      end.
Proof.
  intros Hdoc. split.
  - by apply init_total.
  - intros c Hc. by destruct (init_Ok_inv _ _ _ _ Hdoc Hc) as (_ & _ & _ & _ & ?).
Qed.

Lemma CollectionResponse_pagination_witness :
  (∃ c, CollectionResponse.__init__ (FromDocument (JDict page)) person_model = Ok c
        ∧ CollectionResponse.start c = JInt 0
        ∧ CollectionResponse.limit c = JInt 100
        ∧ CollectionResponse.next_start c = JInt 100
        ∧ CollectionResponse.more_items_in_collection c = JBool true)
  ∧ (∃ c, CollectionResponse.__init__ (FromDocument (JDict no_page)) person_model = Ok c
          ∧ CollectionResponse.start c = JNull
          ∧ CollectionResponse.limit c = JNull
          ∧ CollectionResponse.next_start c = JNull
          ∧ CollectionResponse.more_items_in_collection c = JNull).
Proof.
  split.
  - destruct (CollectionResponse_pagination
                (FromDocument (JDict page)) page person_model eq_refl)
      as [Hbuilt Hcursor].
    destruct (Hbuilt ltac:(vm_compute; reflexivity) ltac:(vm_compute; reflexivity)
                ltac:(vm_compute; reflexivity))
      as [c Hc].
    exists c. split; [exact Hc|]. apply Hcursor in Hc. exact Hc.
  - destruct (CollectionResponse_pagination
                (FromDocument (JDict no_page)) no_page person_model eq_refl)
      as [Hbuilt Hcursor].
    destruct (Hbuilt ltac:(vm_compute; reflexivity) ltac:(vm_compute; reflexivity)
                ltac:(vm_compute; reflexivity))
      as [c Hc].
    exists c. split; [exact Hc|]. apply Hcursor in Hc. exact Hc.
Defined.

(** C5.  In every collection built from a document, the length is the
    number of elements that iteration yields; when [data] is a list,
    iteration yields the projection of each entry, in the order of the
    list; and the key [i] gives the [i]-th element of the iteration. *)
Theorem CollectionResponse_sequence
    (src : response_arg) (doc : gmap string json) (S : ModelClass)
    (c : CollectionResponse.t) :
  decoded src = JDict doc →
  CollectionResponse.__init__ src S = Ok c →
  CollectionResponse.__len__ c = length (CollectionResponse.__iter__ c)
  ∧ (∀ ds, doc !! "data" = Some (JList ds) →
           Forall2 (λ d m, dict_to_model d S = Ok m)
                   ds (CollectionResponse.__iter__ c))
  ∧ (∀ (i : nat) m, CollectionResponse.__iter__ c !! i = Some m →
                    CollectionResponse.__getitem__ c (Z.of_nat i) = Ok m).
Proof.
  intros Hdoc Hc. split; [done|]. split.
  - intros ds Hds.
    destruct (init_Ok_inv _ _ _ _ Hdoc Hc) as (its & Hits & Hms & _).
    rewrite (iterate_data_list _ _ Hds) in Hits. injection Hits as <-.
    by apply comprehension_Forall2.
  - intros i m Hi. unfold CollectionResponse.__getitem__, list_getitem.
    unfold CollectionResponse.__iter__ in Hi.
    destruct (Z.ltb_spec (Z.of_nat i) 0) as [?|_]; [lia|].
    destruct (Z.ltb_spec (Z.of_nat i) 0) as [?|_]; [lia|].
    by rewrite Nat2Z.id, Hi.
Qed.

Lemma CollectionResponse_sequence_witness :
  ∃ c, CollectionResponse.__init__ (FromDocument (JDict page)) person_model = Ok c
       ∧ CollectionResponse.__len__ c = length (CollectionResponse.__iter__ c)
       ∧ Forall2 (λ d m, dict_to_model d person_model = Ok m)
                 [JDict ann; JNull] (CollectionResponse.__iter__ c)
       ∧ (∀ (i : nat) m, CollectionResponse.__iter__ c !! i = Some m →
                         CollectionResponse.__getitem__ c (Z.of_nat i) = Ok m).
Proof.
  destruct (init_total (FromDocument (JDict page)) page person_model eq_refl
              ltac:(vm_compute; reflexivity) ltac:(vm_compute; reflexivity)
              ltac:(vm_compute; reflexivity))
    as [c Hc].
  exists c. split; [exact Hc|].
  destruct (CollectionResponse_sequence
              (FromDocument (JDict page)) page person_model c eq_refl Hc)
    as (Hlen & Horder & Hindex).
  split; [exact Hlen|]. split; [|exact Hindex].
  apply Horder. vm_compute. reflexivity.
Defined.

(** C6.  When [data] is absent or null, the collection has no items.
    In every collection built from a document, [exists()] holds exactly
    when [data] is a list that is not empty. *)
Theorem CollectionResponse_items_exists
    (src : response_arg) (doc : gmap string json) (S : ModelClass) :
  decoded src = JDict doc →
  (doc !! "data" = None ∨ doc !! "data" = Some JNull →
   additional_data_wire_format doc = true →
   ∃ c, CollectionResponse.__init__ src S = Ok c
        ∧ CollectionResponse.items c = []
        ∧ CollectionResponse.exists_ c = false)
  ∧ ∀ c, CollectionResponse.__init__ src S = Ok c →
      (doc !! "data" = None ∨ doc !! "data" = Some JNull →
       CollectionResponse.items c = [])
      ∧ (CollectionResponse.exists_ c = true ↔
         ∃ ds, doc !! "data" = Some (JList ds) ∧ ds ≠ []).
Proof.
  intros Hdoc.
  assert (Hall : ∀ c, CollectionResponse.__init__ src S = Ok c →
      (doc !! "data" = None ∨ doc !! "data" = Some JNull →
       CollectionResponse.items c = [])
      ∧ (CollectionResponse.exists_ c = true ↔
         ∃ ds, doc !! "data" = Some (JList ds) ∧ ds ≠ [])).
  { intros c Hc.
    destruct (init_Ok_inv _ _ _ _ Hdoc Hc) as (its & Hits & Hms & _). split.
    - intros Hdata. rewrite (iterate_data_absent _ Hdata) in Hits.
      injection Hits as <-. by injection Hms.
    - rewrite <- (items_nonempty doc S its _ Hits Hms).
      unfold CollectionResponse.exists_, CollectionResponse.__len__.
      rewrite bool_decide_eq_true.
      destruct (CollectionResponse.items c); simpl; split; (done || lia). }
  split; [|exact Hall].
  intros Hdata Had.
  destruct (init_total src doc S Hdoc) as [c Hc]; [| |done|].
  { unfold data_wire_format. by destruct Hdata as [-> | ->]. }
  { unfold data_converts. by destruct Hdata as [-> | ->]. }
  exists c. destruct (Hall c Hc) as [Hitems _].
  split; [done|]. split; [by apply Hitems|].
  unfold CollectionResponse.exists_, CollectionResponse.__len__.
  by rewrite (Hitems Hdata).
Qed.

Lemma CollectionResponse_items_exists_witness :
  (∃ c, CollectionResponse.__init__ (FromDocument (JDict no_page)) person_model = Ok c
        ∧ CollectionResponse.items c = []
        ∧ CollectionResponse.exists_ c = false)
  ∧ (∃ c, CollectionResponse.__init__ (FromDocument (JDict page)) person_model = Ok c
          ∧ CollectionResponse.exists_ c = true).
Proof.
  split.
  - destruct (CollectionResponse_items_exists
                (FromDocument (JDict no_page)) no_page person_model eq_refl)
      as [Hempty _].
    apply Hempty; [left|]; vm_compute; reflexivity.
  - destruct (init_total (FromDocument (JDict page)) page person_model eq_refl
                ltac:(vm_compute; reflexivity) ltac:(vm_compute; reflexivity)
                ltac:(vm_compute; reflexivity))
      as [c Hc].
    exists c. split; [exact Hc|].
    destruct (CollectionResponse_items_exists
                (FromDocument (JDict page)) page person_model eq_refl)
      as [_ Hall].
    apply (Hall c Hc). exists [JDict ann; JNull]. split; [|discriminate].
    vm_compute. reflexivity.
Defined.

(** The scenario of the specification, run. *)
Example scenario_collection :
  ∃ c, CollectionResponse.__init__ (FromDocument (JDict scenario)) contact_model
       = Ok c
       ∧ CollectionResponse.items c
         = [Some {| model_class_of := contact_model;
                    raw_data := {[ "id" := JInt 1; "name" := JStr "Ann" ]} |}]
       ∧ CollectionResponse.success c = JBool true
       ∧ CollectionResponse.more_items_in_collection c = JBool true
       ∧ CollectionResponse.__len__ c = 1
       ∧ CollectionResponse.exists_ c = true.
Proof. eexists. split; [vm_compute; reflexivity|]. by vm_compute. Qed.

(** ** The store *)

Lemma fresh_loc_unused (w : World) : heap w !! fresh (dom (heap w)) = None.
Proof. apply not_elem_of_dom, is_fresh. Qed.

Lemma fresh_loc_ne (w : World) l o :
  heap w !! l = Some o → l ≠ fresh (dom (heap w)).
Proof. intros Hl ->. by rewrite fresh_loc_unused in Hl. Qed.

(** Running a statement sequence on a world. *)
Lemma run_bind {A B} (m : M A) (k : A → M B) (w : World) :
  (m ≫= k) w = match m w with
               | (Ok a, w') => k a w'
               | (Raise e, w') => (Raise e, w')
               end.
Proof. reflexivity. Qed.

Lemma run_ret {A} (a : A) (w : World) : (mret a : M A) w = (Ok a, w).
Proof. reflexivity. Qed.

Ltac run := rewrite ?run_bind, ?run_ret; cbn.

(** ** The gateway *)

(** Without a token the mock response is returned at once. *)
Lemma send_request_mock
    (w : World) (self : loc) (api_token : option string) (attrs : gmap string loc)
    (method : string) (path : option string) (params : option loc) (data : json) :
  heap w !! self = Some (OGateway api_token attrs) →
  api_token = None ∨ api_token = Some "" →
  PipedriveAPI_send_request self method path params data w = (Ok MockResponse, w).
Proof.
  intros Hself Htoken.
  unfold PipedriveAPI_send_request, getattr_api_token. run. rewrite Hself.
  by destruct Htoken as [-> | ->].
Qed.

(** C7.  On a gateway whose token is [None] or the empty string,
    [send_request] returns the mock response, whose [json()] is the empty
    document, and leaves the world as it was: no request reaches the
    transport. *)
Theorem send_request_without_token
    (w : World) (self : loc) (api_token : option string) (attrs : gmap string loc)
    (method : string) (path : option string) (params : option loc) (data : json) :
  heap w !! self = Some (OGateway api_token attrs) →
  api_token = None ∨ api_token = Some "" →
  PipedriveAPI_send_request self method path params data w = (Ok MockResponse, w)
  ∧ json_ MockResponse = JDict ∅
  ∧ network (PipedriveAPI_send_request self method path params data w).2 = network w.
Proof.
  intros Hself Htoken.
  by rewrite (send_request_mock w self api_token attrs method path params data
                Hself Htoken).
Qed.

Lemma send_request_without_token_witness :
  PipedriveAPI_send_request 4%positive "GET" (Some "/deals") (Some 3%positive) JNull world0
  = (Ok MockResponse, world0)
  ∧ json_ MockResponse = JDict ∅
  ∧ network (PipedriveAPI_send_request 4%positive "GET" (Some "/deals")
               (Some 3%positive) JNull world0).2 = network world0.
Proof.
  apply (send_request_without_token world0 4%positive None ∅).
  - vm_compute. reflexivity.
  - left. reflexivity.
Defined.

(** What [params or {}] evaluates to: the caller's dict when it is not
    empty, and a new, empty dict otherwise. *)
Lemma or_new_dict_run (w : World) (params : option loc) (d : gmap string json) :
  params_dict w params = Some d →
  ∃ l w1,
    or_new_dict params w = (Ok l, w1)
    ∧ heap w1 !! l = Some (ODict d)
    ∧ (∀ l' o, heap w !! l' = Some o → heap w1 !! l' = Some o)
    ∧ resource_registry w1 = resource_registry w
    ∧ transport w1 = transport w
    ∧ network w1 = network w
    ∧ logged w1 = logged w
    ∧ ((params = Some l ∧ dom d ≠ ∅ ∧ w1 = w) ∨ (heap w !! l = None ∧ d = ∅)).
Proof.
  intros Hd.
  assert (Hnew : ∃ l w1, alloc (ODict ∅) w = (Ok l, w1)
    ∧ heap w1 !! l = Some (ODict ∅)
    ∧ (∀ l' o, heap w !! l' = Some o → heap w1 !! l' = Some o)
    ∧ resource_registry w1 = resource_registry w
    ∧ transport w1 = transport w
    ∧ network w1 = network w
    ∧ logged w1 = logged w
    ∧ heap w !! l = None).
  { eexists _, _. split; [reflexivity|]. cbn. split; [apply lookup_insert_eq|].
    split; [|by auto using fresh_loc_unused].
    intros l' o Hl'. rewrite lookup_insert_ne; [done|].
    by apply not_eq_sym, (fresh_loc_ne w l' o). }
  destruct params as [l|]; cbn in Hd.
  - destruct (heap w !! l) as [[d'| |]|] eqn:Hl; try discriminate.
    injection Hd as ->. unfold or_new_dict, deref. run. rewrite Hl. cbn.
    destruct (decide (dom d = ∅)) as [Hempty|Hne].
    + rewrite bool_decide_true by done. cbn.
      apply dom_empty_inv_L in Hempty as ->.
      destruct Hnew as (l' & w1 & -> & ? & ? & ? & ? & ? & ? & ?).
      exists l', w1. repeat (split; [done|]). by right.
    + rewrite bool_decide_false by done. cbn.
      exists l, w. repeat (split; [done|]). by left.
  - injection Hd as <-. unfold or_new_dict.
    destruct Hnew as (l' & w1 & -> & ? & ? & ? & ? & ? & ? & ?).
    exists l', w1. repeat (split; [done|]). by right.
Qed.

(** What [send_request] does on a gateway that has a token: the dict [l]
    that [params or {}] gives receives the token, and, when there is a
    path, the transport is called once. *)
Lemma send_request_run
    (w : World) (self : loc) (token : string) (attrs : gmap string loc)
    (method : string) (path : option string) (params : option loc) (data : json)
    (d : gmap string json) :
  heap w !! self = Some (OGateway (Some token) attrs) →
  token ≠ "" →
  params_dict w params = Some d →
  ∃ l w1 w',
    or_new_dict params w = (Ok l, w1)
    ∧ heap w' = <[l := ODict (<["api_token" := JStr token]> d)]> (heap w1)
    ∧ match path with
      | None =>
          PipedriveAPI_send_request self method path params data w
          = (Raise (TypeError "cannot concatenate"), w')
          ∧ network w' = network w
      | Some p =>
          let req := {| req_method := method; req_url := BASE_URL ++ p;
                        req_params := <["api_token" := JStr token]> d;
                        req_data := data |} in
          PipedriveAPI_send_request self method path params data w
          = (transport w req, w')
          ∧ network w' = (network w ++ [req])%list
      end.
Proof.
  intros Hself Htoken Hd.
  destruct (or_new_dict_run w params d Hd)
    as (l & w1 & Hor & Hl & Hkeep & Hreg & Htr & Hnet & Hlog & _).
  exists l, w1.
  unfold PipedriveAPI_send_request, getattr_api_token. run. rewrite Hself.
  destruct token as [|a token]; [done|]. run. rewrite Hor.
  assert (Hset : dict_setitem l "api_token" (JStr (String a token)) w1
                 = (Ok (), set_heap (<[l := ODict (<["api_token" := JStr (String a token)]> d)]>
                                       (heap w1)) w1))
    by (unfold dict_setitem; by rewrite Hl).
  destruct path as [p|]; rewrite run_bind, Hset; run.
  - unfold try_except, requests_request. cbn. rewrite lookup_insert_eq.
    rewrite Htr, Hnet.
    destruct (transport w _) as [r|e]; eexists;
      (split; [done|]); (split; [|split; reflexivity]); done.
  - eexists. split; [done|]. split; [|split; [reflexivity|exact Hnet]]. done.
Qed.

(** C8.  On a gateway whose token is a string that is not empty,
    [send_request] calls the transport once; the query parameters of that
    call hold the token under [api_token], next to what the caller passed,
    and its URL is [BASE_URL] followed by the path.  What the transport
    answers, a response or an exception, is the outcome of the call. *)
Theorem send_request_with_token
    (w : World) (self : loc) (token : string) (attrs : gmap string loc)
    (method path : string) (params : option loc) (data : json)
    (d : gmap string json) :
  heap w !! self = Some (OGateway (Some token) attrs) →
  token ≠ "" →
  params_dict w params = Some d →
  ∃ req w',
    PipedriveAPI_send_request self method (Some path) params data w
    = (transport w req, w')
    ∧ network w' = (network w ++ [req])%list
    ∧ req_url req = BASE_URL ++ path
    ∧ req_params req !! "api_token" = Some (JStr token)
    ∧ (∀ k, k ≠ "api_token" → req_params req !! k = d !! k)
    ∧ req_method req = method
    ∧ req_data req = data.
Proof.
  intros Hself Htoken Hd.
  destruct (send_request_run w self token attrs method (Some path) params data d
              Hself Htoken Hd) as (l & w1 & w' & _ & _ & Hrun & Hnet).
  eexists _, w'. split; [exact Hrun|]. split; [exact Hnet|]. cbn.
  split; [done|]. split; [apply lookup_insert_eq|]. split; [|done].
  intros k Hk. by rewrite lookup_insert_ne.
Qed.

Lemma send_request_with_token_witness :
  ∃ req w',
    PipedriveAPI_send_request 1%positive "GET" (Some "/deals") (Some 3%positive)
      JNull world0
    = (transport world0 req, w')
    ∧ network w' = (network world0 ++ [req])%list
    ∧ req_url req = BASE_URL ++ "/deals"
    ∧ req_params req !! "api_token" = Some (JStr "tok")
    ∧ (∀ k, k ≠ "api_token" → req_params req !! k = ({[ "a" := JInt 1 ]} : gmap string json) !! k)
    ∧ req_method req = "GET"
    ∧ req_data req = JNull.
Proof.
  apply (send_request_with_token world0 1%positive "tok" {[ "deals" := 5%positive ]}).
  - vm_compute. reflexivity.
  - discriminate.
  - vm_compute. reflexivity.
Defined.

Lemma or_new_dict_nonempty (w : World) (l : loc) (d : gmap string json) :
  heap w !! l = Some (ODict d) → d ≠ ∅ →
  or_new_dict (Some l) w = (Ok l, w).
Proof.
  intros Hl Hd. unfold or_new_dict, deref. run. rewrite Hl. cbn.
  rewrite bool_decide_false; [done|]. by intros ?%dom_empty_inv_L.
Qed.

(** Whatever the object at [self] is, [send_request] leaves a dict that
    is not empty in place, with its entries other than [api_token]. *)
Lemma send_request_keeps
    (w : World) (self : loc) (method : string) (path : option string)
    (l : loc) (data : json) (d : gmap string json) :
  heap w !! l = Some (ODict d) → d ≠ ∅ →
  ∃ d', heap (PipedriveAPI_send_request self method path (Some l) data w).2 !! l
        = Some (ODict d')
        ∧ ∀ k v, k ≠ "api_token" → d !! k = Some v → d' !! k = Some v.
Proof.
  intros Hl Hd.
  assert (Hsame : ∀ r : result Response, ∃ d', heap (r, w).2 !! l = Some (ODict d')
        ∧ ∀ k v, k ≠ "api_token" → d !! k = Some v → d' !! k = Some v)
    by (intros; exists d; by split).
  destruct (heap w !! self) as [[|api_token attrs|]|] eqn:Hself.
  1,3,4: unfold PipedriveAPI_send_request, getattr_api_token; run;
    rewrite Hself; cbn; apply (Hsame (Raise (AttributeError "api_token"))).
  destruct api_token as [token|].
  2: { rewrite (send_request_mock w self None attrs method path
                  (Some l) data Hself (or_introl eq_refl)).
       apply (Hsame (Ok MockResponse)). }
  destruct (decide (token = "")) as [->|Htoken].
  { rewrite (send_request_mock w self (Some "") attrs method path
               (Some l) data Hself (or_intror eq_refl)).
    apply (Hsame (Ok MockResponse)). }
  destruct (send_request_run w self token attrs method path (Some l) data d
              Hself Htoken) as (l' & w1 & w' & Hor & Hheap & Hrun).
  { cbn. by rewrite Hl. }
  rewrite (or_new_dict_nonempty w l d Hl Hd) in Hor. injection Hor as <- <-.
  exists (<["api_token" := JStr token]> d).
  assert (Hw' : heap w' !! l = Some (ODict (<["api_token" := JStr token]> d)))
    by (rewrite Hheap; apply lookup_insert_eq).
  split.
  - destruct path; destruct Hrun as [-> _]; exact Hw'.
  - intros k v Hk Hv. by rewrite lookup_insert_ne.
Qed.

(** [send_request] writes to the dict that [params or {}] gives, and to
    no other object of the store. *)
Lemma send_request_frame
    (w : World) (self : loc) (method : string) (path : option string)
    (params : option loc) (data : json) (l : loc) (o : object) :
  heap w !! l = Some o →
  params ≠ Some l →
  heap (PipedriveAPI_send_request self method path params data w).2 !! l = Some o.
Proof.
  intros Hl Hparams.
  destruct (heap w !! self) as [[|api_token attrs|]|] eqn:Hself.
  1,3,4: unfold PipedriveAPI_send_request, getattr_api_token; run;
    by rewrite Hself.
  destruct api_token as [token|].
  2: by rewrite (send_request_mock w self None attrs method path
                   params data Hself (or_introl eq_refl)).
  destruct (decide (token = "")) as [->|Htoken].
  { by rewrite (send_request_mock w self (Some "") attrs method path
                  params data Hself (or_intror eq_refl)). }
  destruct (params_dict w params) as [d|] eqn:Hd.
  - destruct (send_request_run w self token attrs method path params data d
                Hself Htoken Hd) as (l' & w1 & w' & Hor & Hheap & Hrun).
    destruct (or_new_dict_run w params d Hd)
      as (l'' & w1' & Hor' & _ & Hkeep & _ & _ & _ & _ & Hcases).
    rewrite Hor in Hor'. injection Hor' as <- <-.
    assert (Hne : l' ≠ l).
    { destruct Hcases as [(-> & _ & _) | [Hfresh _]]; [congruence|].
      intros ->. congruence. }
    assert (Hw' : heap w' !! l = Some o)
      by (rewrite Hheap, lookup_insert_ne by done; by apply Hkeep).
    destruct path; destruct Hrun as [-> _]; exact Hw'.
  - destruct params as [l0|]; [|done]. cbn in Hd.
    unfold PipedriveAPI_send_request, getattr_api_token. run. rewrite Hself.
    destruct token as [|a token]; [done|]. run.
    unfold or_new_dict, deref. rewrite ?run_bind.
    destruct (heap w !! l0) as [[d| |]|] eqn:Hl0; try discriminate; cbn;
      unfold dict_setitem; rewrite ?run_bind; cbv beta; by rewrite ?Hl0.
Qed.

Lemma resource_send_request_frame
    (w : World) (self : loc) (method : string) (path : option string)
    (params : option loc) (data : json) (l : loc) (o : object) :
  heap w !! l = Some o →
  params ≠ Some l →
  heap (BaseResource_send_request self method path params data w).2 !! l = Some o.
Proof.
  intros Hl Hparams. unfold BaseResource_send_request. rewrite run_bind.
  unfold getattr_api at 1.
  destruct (heap w !! self) as [[| |cls api]|]; try done.
  rewrite run_bind.
  pose proof (send_request_frame w api method path params data l o Hl Hparams)
    as Hframe.
  destruct (PipedriveAPI_send_request api method path params data w)
    as [[response|e] w']; [|done].
  rewrite run_bind. by destruct (ok response).
Qed.

(** C10, as amended.  A dict that is not empty, passed as [params], is
    written in place: after [send_request] on a gateway that has a token
    it holds the token under [api_token], and after [_find] it holds the
    search term under [term]; its other entries stay.  This holds also
    when the call raises.  An empty dict passed as [params] is left as it
    was by both. *)
Theorem params_mutated_in_place
    (w : World) (l : loc) (d : gmap string json) (data : json) :
  heap w !! l = Some (ODict d) →
  (d ≠ ∅ →
   (∀ self token attrs method path,
      heap w !! self = Some (OGateway (Some token) attrs) →
      token ≠ "" →
      heap (PipedriveAPI_send_request self method path (Some l) data w).2 !! l
      = Some (ODict (<["api_token" := JStr token]> d)))
   ∧ (∀ self cls api term,
        heap w !! self = Some (OResource cls api) →
        ∃ d', heap (BaseResource_find self term (Some l) data w).2 !! l
              = Some (ODict d')
              ∧ d' !! "term" = Some term
              ∧ ∀ k v, k ≠ "term" → k ≠ "api_token" → d !! k = Some v →
                       d' !! k = Some v))
  ∧ (d = ∅ →
     (∀ self method path,
        heap (PipedriveAPI_send_request self method path (Some l) data w).2 !! l
        = Some (ODict ∅))
     ∧ (∀ self term,
          heap (BaseResource_find self term (Some l) data w).2 !! l
          = Some (ODict ∅))).
Proof.
  intros Hl. split.
  - intros Hd. split.
    + intros self token attrs method path Hself Htoken.
      destruct (send_request_run w self token attrs method path (Some l) data d
                  Hself Htoken) as (l' & w1 & w' & Hor & Hheap & Hrun).
      { cbn. by rewrite Hl. }
      rewrite (or_new_dict_nonempty w l d Hl Hd) in Hor. injection Hor as <- <-.
      assert (Hw' : heap w' !! l = Some (ODict (<["api_token" := JStr token]> d)))
        by (rewrite Hheap; apply lookup_insert_eq).
      destruct path; destruct Hrun as [-> _]; exact Hw'.
    + intros self cls api term Hself.
      assert (Hne : l ≠ self) by (intros ->; congruence).
      unfold BaseResource_find. rewrite run_bind.
      rewrite (or_new_dict_nonempty w l d Hl Hd). rewrite run_bind.
      unfold dict_setitem at 1. rewrite Hl.
      set (w1 := set_heap (<[l := ODict (<["term" := term]> d)]> (heap w)) w).
      assert (Hl1 : heap w1 !! l = Some (ODict (<["term" := term]> d)))
        by apply lookup_insert_eq.
      assert (Hself1 : heap w1 !! self = Some (OResource cls api))
        by (cbn; by rewrite lookup_insert_ne).
      rewrite run_bind. unfold class_of at 1. rewrite Hself1.
      unfold BaseResource_send_request. rewrite run_bind.
      unfold getattr_api at 1. rewrite Hself1. rewrite run_bind.
      destruct (send_request_keeps w1 api "GET" (FIND_REQ_PATH cls) l data
                  (<["term" := term]> d) Hl1) as (d' & Hd' & Hkeep).
      { apply insert_non_empty. }
      exists d'.
      destruct (PipedriveAPI_send_request api "GET" (FIND_REQ_PATH cls) (Some l) data w1)
        as [[response|e] w2]; cbn in Hd'.
      * assert (Hhooks : ∀ k : () → M Response,
                  ((if ok response then process_success self response
                    else process_error self response) ≫= k) w2 = k () w2)
          by (intros k; by destruct (ok response)).
        rewrite Hhooks. cbn. split; [exact Hd'|]. split.
        -- apply Hkeep; [done|]. apply lookup_insert_eq.
        -- intros k v Hk1 Hk2 Hv. apply Hkeep; [done|]. by rewrite lookup_insert_ne.
      * cbn. split; [exact Hd'|]. split.
        -- apply Hkeep; [done|]. apply lookup_insert_eq.
        -- intros k v Hk1 Hk2 Hv. apply Hkeep; [done|]. by rewrite lookup_insert_ne.
  - intros ->.
    assert (Hor : or_new_dict (Some l) w = alloc (ODict ∅) w).
    { unfold or_new_dict, deref. rewrite run_bind. by rewrite Hl. }
    set (l' := fresh (dom (heap w))) in *.
    assert (Hne : l ≠ l') by (by apply (fresh_loc_ne w l (ODict ∅))).
    split.
    + intros self method path.
      destruct (heap w !! self) as [[|api_token attrs|]|] eqn:Hself.
      1,3,4: unfold PipedriveAPI_send_request, getattr_api_token; run;
        by rewrite Hself.
      destruct api_token as [token|].
      2: by rewrite (send_request_mock w self None attrs method path
                       (Some l) data Hself (or_introl eq_refl)).
      destruct (decide (token = "")) as [->|Htoken].
      { by rewrite (send_request_mock w self (Some "") attrs method path
                      (Some l) data Hself (or_intror eq_refl)). }
      destruct (send_request_run w self token attrs method path (Some l) data ∅
                  Hself Htoken) as (l0 & w1 & w' & Hor' & Hheap & Hrun).
      { cbn. by rewrite Hl. }
      rewrite Hor in Hor'. injection Hor' as <- <-.
      assert (Hw' : heap w' !! l = Some (ODict ∅)).
      { rewrite Hheap. cbn. by rewrite !lookup_insert_ne. }
      destruct path; destruct Hrun as [-> _]; exact Hw'.
    + intros self term. unfold BaseResource_find. rewrite run_bind, Hor.
      unfold alloc. fold l'. cbv zeta. rewrite run_bind.
      unfold dict_setitem at 1. cbn [heap set_heap]. rewrite lookup_insert_eq.
      set (w2 := set_heap _ _).
      assert (Hl2 : heap w2 !! l = Some (ODict ∅)).
      { unfold w2. cbn. by rewrite !lookup_insert_ne. }
      rewrite run_bind. unfold class_of at 1.
      destruct (heap w2 !! self) as [[| |cls api]|]; try exact Hl2.
      apply resource_send_request_frame; [exact Hl2 | congruence].
Qed.

Lemma params_mutated_in_place_witness :
  (heap (PipedriveAPI_send_request 1%positive "GET" (Some "/deals") (Some 3%positive)
           JNull world0).2 !! 3%positive
   = Some (ODict (<["api_token" := JStr "tok"]> {[ "a" := JInt 1 ]}))
   ∧ ∃ d', heap (BaseResource_find 5%positive (JStr "ann") (Some 3%positive)
                   JNull world0).2 !! 3%positive
           = Some (ODict d')
           ∧ d' !! "term" = Some (JStr "ann")
           ∧ ∀ k v, k ≠ "term" → k ≠ "api_token" →
                    ({[ "a" := JInt 1 ]} : gmap string json) !! k = Some v →
                    d' !! k = Some v)
  ∧ heap (PipedriveAPI_send_request 1%positive "GET" (Some "/deals") (Some 2%positive)
            JNull world0).2 !! 2%positive
    = Some (ODict ∅)
  ∧ heap (BaseResource_find 5%positive (JStr "ann") (Some 2%positive)
            JNull world0).2 !! 2%positive
    = Some (ODict ∅).
Proof.
  split.
  - destruct (params_mutated_in_place world0 3%positive {[ "a" := JInt 1 ]} JNull)
      as [Hfull _]; [vm_compute; reflexivity|].
    destruct (Hfull ltac:(apply insert_non_empty)) as [Hsend Hfind].
    split.
    + apply (Hsend 1%positive "tok" {[ "deals" := 5%positive ]});
        [vm_compute; reflexivity | discriminate].
    + apply (Hfind 5%positive deals 1%positive). vm_compute. reflexivity.
  - destruct (params_mutated_in_place world0 2%positive ∅ JNull)
      as [_ Hempty]; [vm_compute; reflexivity|].
    destruct (Hempty eq_refl) as [Hsend Hfind].
    split; [apply Hsend | apply Hfind].
Defined.

(** C10 as the specification states it fails: an empty dict passed as
    [params] is a mapping that is not [None], and it is still empty after
    [send_request] on a gateway that has a token, and after [_find]. *)
Lemma params_empty_counterexample :
  heap world0 !! 1%positive = Some (OGateway (Some "tok") {[ "deals" := 5%positive ]})
  ∧ heap world0 !! 5%positive = Some (OResource deals 1%positive)
  ∧ heap world0 !! 2%positive = Some (ODict ∅)
  ∧ (∃ d', heap (PipedriveAPI_send_request 1%positive "GET" (Some "/deals")
                   (Some 2%positive) JNull world0).2 !! 2%positive
           = Some (ODict d')
           ∧ d' !! "api_token" = None)
  ∧ (∃ d', heap (BaseResource_find 5%positive (JStr "ann") (Some 2%positive)
                   JNull world0).2 !! 2%positive
           = Some (ODict d')
           ∧ d' !! "term" = None).
Proof.
  repeat split; try (vm_compute; reflexivity);
    exists ∅; split; vm_compute; reflexivity.
Qed.

(** C9.  On a gateway, [__getattr__] of a name that is not in the
    registry raises [AttributeError] and changes nothing.  For a name
    that the registry maps to a resource class, it returns a client that
    is new in the store, of that class and with this gateway for [api];
    the gateway then has that same client under the accessor name of the
    class, and no other object has changed. *)
Theorem getattr_resource
    (w : World) (self : loc) (api_token : option string) (attrs : gmap string loc)
    (item : string) :
  heap w !! self = Some (OGateway api_token attrs) →
  match resource_registry w !! item with
  | None =>
      PipedriveAPI_getattr self item w
      = (Raise (AttributeError "No resource is registered under that name."), w)
  | Some resource_class =>
      ∃ client w',
        PipedriveAPI_getattr self item w = (Ok client, w')
        ∧ heap w !! client = None
        ∧ heap w' !! client = Some (OResource resource_class self)
        ∧ heap w' !! self
          = Some (OGateway api_token
                    (<[API_ACESSOR_NAME resource_class := client]> attrs))
        ∧ (∀ l, l ≠ client → l ≠ self → heap w' !! l = heap w !! l)
        ∧ resource_registry w' = resource_registry w
        ∧ network w' = network w
  end.
Proof.
  intros Hself.
  unfold PipedriveAPI_getattr, try_except, registry_getitem. rewrite run_bind.
  destruct (resource_registry w !! item) as [resource_class|]; [|done].
  unfold BaseResource_init. rewrite run_bind. unfold alloc at 1.
  set (client := fresh (dom (heap w))).
  assert (Hclient : heap w !! client = None) by apply fresh_loc_unused.
  assert (Hne : self ≠ client) by (intros ->; congruence).
  rewrite run_bind. unfold setattr. cbn.
  rewrite lookup_insert_ne by done. rewrite Hself. cbn.
  eexists _, _. split; [reflexivity|]. cbn.
  split; [done|]. split.
  { rewrite lookup_insert_ne by done. apply lookup_insert_eq. }
  split; [apply lookup_insert_eq|]. split; [|done].
  intros l Hl1 Hl2. by rewrite !lookup_insert_ne.
Qed.

Lemma getattr_resource_witness :
  (∃ client w',
     PipedriveAPI_getattr 4%positive "deals" world0 = (Ok client, w')
     ∧ heap world0 !! client = None
     ∧ heap w' !! client = Some (OResource deals 4%positive)
     ∧ heap w' !! 4%positive
       = Some (OGateway None (<[API_ACESSOR_NAME deals := client]> ∅))
     ∧ (∀ l, l ≠ client → l ≠ 4%positive → heap w' !! l = heap world0 !! l)
     ∧ resource_registry w' = resource_registry world0
     ∧ network w' = network world0)
  ∧ PipedriveAPI_getattr 4%positive "persons" world0
    = (Raise (AttributeError "No resource is registered under that name."), world0).
Proof.
  split.
  - apply (getattr_resource world0 4%positive None ∅ "deals").
    vm_compute. reflexivity.
  - apply (getattr_resource world0 4%positive None ∅ "persons").
    vm_compute. reflexivity.
Defined.

(** ** Projection of a dict held by reference *)

Lemma by_reference_getitem (w : World) (data : loc) (d : gmap string json) k v :
  heap w !! data = Some (ODict d) →
  d !! k = Some v →
  ByReference.getitem data k w = (Ok v, w).
Proof.
  intros Hdata Hv. unfold ByReference.getitem, deref. rewrite run_bind.
  by rewrite Hdata, Hv.
Qed.

Lemma by_reference_comprehension (w : World) (data : loc) (d : gmap string json)
    (ks : list string) :
  heap w !! data = Some (ODict d) →
  (∀ k, k ∈ ks → is_Some (d !! k)) →
  ByReference.comprehension
    (λ key, v ← ByReference.getitem data key; mret (key, v)) ks w
  = (Ok ((λ key, (key, d !!! key)) <$> ks), w).
Proof.
  intros Hdata. induction ks as [|k ks IH]; intros Hks; [done|].
  destruct (Hks k) as [v Hv]; [by left|].
  cbn [ByReference.comprehension]. rewrite !run_bind.
  rewrite (by_reference_getitem w data d k v Hdata Hv). rewrite run_ret.
  rewrite run_bind, IH by (intros k' Hk'; apply Hks; by right).
  rewrite fmap_cons. by rewrite (lookup_total_correct _ _ _ Hv).
Qed.

(** C3.  The projection of a dict held by reference leaves the dict,
    and every other object that was in the store, as it was, whether it
    returns a model or the constructor raises; its outcome is the one that
    the projection of the contents gives, which is a model when the values
    under the model keys convert. *)
Theorem dict_to_model_frame
    (w : World) (l : loc) (D : gmap string json) (S : ModelClass) :
  heap w !! l = Some (ODict D) →
  ∃ w',
    ByReference.dict_to_model (Some l) S w = (dict_to_model (JDict D) S, w')
    ∧ heap w' !! l = Some (ODict D)
    ∧ (∀ l' o, heap w !! l' = Some o → heap w' !! l' = Some o)
    ∧ (converts S D = true → ∃ m, dict_to_model (JDict D) S = Ok (Some m)).
Proof.
  intros Hl. rewrite dict_to_model_dict.
  unfold ByReference.dict_to_model, ByReference.deepcopy.
  rewrite !run_bind. unfold deref at 1. rewrite Hl. unfold alloc at 1.
  set (copy := fresh (dom (heap w))).
  set (w1 := set_heap (<[copy := ODict D]> (heap w)) w).
  assert (Hcopy : heap w1 !! copy = Some (ODict D)) by apply lookup_insert_eq.
  rewrite run_bind.
  unfold ByReference.keys at 1, deref at 1. rewrite run_bind, Hcopy. run.
  unfold ByReference.dict_comprehension. rewrite !run_bind.
  rewrite (by_reference_comprehension w1 copy D) by
    (done || (intros k Hk%elem_of_elements; apply elem_of_dom;
              by apply elem_of_intersection in Hk as [? _])).
  unfold alloc at 1.
  set (safe_data := fresh (dom (heap w1))).
  set (w2 := set_heap _ w1).
  unfold ByReference.construct, deref. rewrite run_bind.
  assert (Hsafe : heap w2 !! safe_data = Some (ODict (filter
            (λ kv : string * json, kv.1 ∈ dom D ∩ model_keys S) D))).
  { unfold w2. cbn. rewrite lookup_insert_eq.
    by rewrite safe_data_filter by apply intersection_subseteq_l. }
  rewrite !run_bind. cbv beta. rewrite Hsafe. unfold lift.
  exists w2. split.
  { rewrite construct_safe_data. by destruct (converts S D). }
  assert (Hkeep : ∀ l' o, heap w !! l' = Some o → heap w2 !! l' = Some o).
  { intros l' o Hl'. unfold w2. cbn.
    assert (heap w1 !! l' = Some o) as Hl1.
    { unfold w1. cbn. rewrite lookup_insert_ne; [done|].
      by apply not_eq_sym, (fresh_loc_ne w l' o). }
    rewrite lookup_insert_ne; [done|].
    by apply not_eq_sym, (fresh_loc_ne w1 l' o). }
  split; [by apply Hkeep|]. split; [exact Hkeep|].
  intros H. rewrite H. by eexists.
Qed.

Lemma dict_to_model_frame_witness :
  ∃ w',
    ByReference.dict_to_model (Some 3%positive) person_model world0
    = (dict_to_model (JDict {[ "a" := JInt 1 ]}) person_model, w')
    ∧ heap w' !! 3%positive = Some (ODict {[ "a" := JInt 1 ]})
    ∧ (∀ l' o, heap world0 !! l' = Some o → heap w' !! l' = Some o)
    ∧ (converts person_model {[ "a" := JInt 1 ]} = true →
       ∃ m, dict_to_model (JDict {[ "a" := JInt 1 ]}) person_model
            = Ok (Some m)).
Proof.
  apply (dict_to_model_frame world0 3%positive). vm_compute. reflexivity.
Defined.

(** * Further properties *)

(** ** Record projection *)

(** Documents that agree on the model keys have the same safe data. *)
Lemma safe_data_agree (D D' : gmap string json) (S : ModelClass) :
  (∀ k, k ∈ model_keys S → D !! k = D' !! k) →
  filter (λ kv : string * json, kv.1 ∈ dom D ∩ model_keys S) D
  = filter (λ kv : string * json, kv.1 ∈ dom D' ∩ model_keys S) D'.
Proof.
  intros Hagree. apply map_eq. intros k.
  destruct (decide (k ∈ model_keys S)) as [Hk|Hk].
  - by rewrite !lookup_safe_data, Hagree.
  - transitivity (@None json); [|symmetry];
      apply map_lookup_filter_None; right; intros v _; simpl;
      by intros [_ ?]%elem_of_intersection.
Qed.

Lemma dict_to_model_agree (D D' : gmap string json) (S : ModelClass) :
  (∀ k, k ∈ model_keys S → D !! k = D' !! k) →
  dict_to_model (JDict D) S = dict_to_model (JDict D') S.
Proof.
  intros Hagree.
  by rewrite !dict_to_model_dict, (converts_ext S D D' Hagree),
    (safe_data_agree D D' S Hagree).
Qed.

(** X1.  Projection is idempotent on documents: a document cut down to
    its entries under the model keys has the projection of the whole
    document, the same model or the same exception. *)
Theorem dict_to_model_idempotent (D : gmap string json) (S : ModelClass) :
  dict_to_model
    (JDict (filter (λ kv : string * json, kv.1 ∈ model_keys S) D)) S
  = dict_to_model (JDict D) S.
Proof.
  apply dict_to_model_agree. intros k Hk. apply option_eq. intros v.
  rewrite map_lookup_filter_Some. simpl. split; [by intros [? _] | done].
Qed.

(** X2.  Only the model keys of a document matter: two documents that
    agree on every model key have the same projection, whatever else
    they hold. *)
Theorem dict_to_model_known_keys_only (D D' : gmap string json) (S : ModelClass) :
  (∀ k, k ∈ model_keys S → D !! k = D' !! k) →
  dict_to_model (JDict D) S = dict_to_model (JDict D') S.
Proof.
  intros Hagree.
  rewrite !dict_to_model_dict, (converts_ext S D D' Hagree).
  by rewrite (safe_data_agree D D' S Hagree).
Qed.

Lemma dict_to_model_known_keys_only_witness :
  dict_to_model (JDict (<["secret" := JStr "x"]> ann)) person_model
  = dict_to_model (JDict (delete "name" ann)) person_model.
Proof.
  apply dict_to_model_known_keys_only. intros k Hk.
  assert (k = "id" ∨ k = "Name") as [-> | ->]; [|done|done].
  apply elem_of_model_keys in Hk as (n & f & Hf & ->).
  unfold person_model in Hf. simpl in Hf.
  apply lookup_insert_Some in Hf as [[<- <-] | [_ Hf]]; [by left|].
  apply lookup_singleton_Some in Hf as [<- <-]. by right.
Defined.

(** ** Paginated collections *)

(** What projection returns a result on. *)
Lemma dict_to_model_item_Ok S (item : json) m :
  dict_to_model item S = Ok m →
  is_document item = true ∧ item_converts S item = true.
Proof.
  destruct item; cbn; try discriminate; [done|].
  by intros [? _]%dict_to_model_Ok_inv.
Qed.



Lemma comprehension_accepted S (ds : list json) :
  (∃ ms, comprehension (λ item, dict_to_model item S) ds = Ok ms)
  ↔ forallb is_document ds = true ∧ forallb (item_converts S) ds = true.
Proof.
  split; [|intros [? ?]; by apply comprehension_documents].
  intros [ms Hms]. apply comprehension_Forall2 in Hms.
  induction Hms as [|item m ds ms Hm _ [IH1 IH2]]; [done|].
  apply dict_to_model_item_Ok in Hm as [Hd Hc]. cbn.
  by rewrite Hd, Hc, IH1, IH2.
Qed.

(** The items of the document, before projection. *)
Lemma iterate_accepted (doc : gmap string json) S :
  (∃ its ms,
     iterate (py_or (default (JList []) (doc !! "data")) (JList [])) = Ok its
     ∧ comprehension (λ item, dict_to_model item S) its = Ok ms)
  ↔ data_accepted doc = true ∧ data_converts S doc = true.
Proof.
  unfold data_accepted, data_converts.
  destruct (doc !! "data") as [v|]; cbn; [|split; [done|by exists [], []]].
  unfold py_or. destruct (truthy v) eqn:Htruthy.
  2: { split; [|by exists [], []]. intros _. split; [done|].
       by destruct v as [| | | |[|]|]. }
  destruct v as [|b|n|s|l|d]; cbn in *; try discriminate.
  - split; [|by intros [? _]]. by intros (? & ? & [=] & _).
  - split; [|by intros [? _]]. by intros (? & ? & [=] & _).
  - split; [|by intros [? _]]. intros (its & ms & [= <-] & Hms).
    apply comprehension_strings in Hms.
    + destruct s as [|c s]; [done|]. discriminate.
    + apply Forall_fmap, Forall_true. intros c. by eexists.
  - rewrite <- (comprehension_accepted S l). split.
    + intros (its & ms & [= <-] & Hms). by exists ms.
    + intros [ms Hms]. by exists l, ms.
  - split; [|by intros [? _]]. intros (its & ms & [= <-] & Hms).
    apply comprehension_strings in Hms.
    + apply fmap_nil_inv, fmap_nil_inv, map_to_list_empty_iff in Hms as ->.
      by rewrite dom_empty_L, bool_decide_true in Htruthy.
    + apply Forall_fmap, Forall_true. intros c. by eexists.
Qed.

(** X3.  The constructor returns a collection exactly when [data] is
    absent, falsy or a list of documents (objects or nulls), the entries
    of [data] that are objects convert, and [additional_data] is absent,
    or an object whose [pagination] is absent or an object, or a list or a
    string in which [pagination] does not occur.  On every other document
    it raises. *)
Theorem CollectionResponse_built_iff
    (src : response_arg) (doc : gmap string json) (S : ModelClass) :
  decoded src = JDict doc →
  (∃ c, CollectionResponse.__init__ src S = Ok c)
  ↔ data_accepted doc = true
    ∧ data_converts S doc = true
    ∧ additional_data_accepted doc = true.
Proof.
  intros Hdoc. unfold CollectionResponse.__init__.
  replace (match src with FromResponse r => json_ r | FromDocument d => d end)
    with (JDict doc) by (by destruct src).
  pose proof (iterate_accepted doc S) as Hit.
  unfold additional_data_accepted. split.
  - intros [c Hc]. inv_binds Hc. cbn in Ha, Ha2, Ha3. simplify_eq.
    destruct (proj1 Hit) as [Hd Hcv]; [by eauto|].
    split; [done|]. split; [done|]. cbn in Ha4, Hc.
    destruct (doc !! "additional_data") as [v|] eqn:Had;
      rewrite ?Had in Ha4, Hc; cbn in Ha4, Hc; [|done].
    destruct v as [| | |s|l|ad]; cbn in Ha4, Hc; try discriminate.
    1,2: injection Ha4 as <-;
      match goal with |- negb ?b = true => destruct b end; [discriminate|done].
    injection Ha4 as <-.
    destruct (ad !! "pagination") as [pg|] eqn:Hpg;
      rewrite ?Hpg in Hc; cbn in Hc; [|done].
    by destruct pg.
  - intros (Hd & Hcv & Had).
    destruct (proj2 Hit (conj Hd Hcv)) as (its & ms & Hits & Hms).
    cbn -[iterate py_or comprehension]. rewrite Hits. cbn -[comprehension].
    rewrite Hms. cbn.
    destruct (doc !! "additional_data") as [[| | |s|l|ad]|]; try discriminate; cbn;
      [| | |by eexists].
    + apply negb_true_iff in Had. cbn in Had. rewrite Had. cbn. by eexists.
    + apply negb_true_iff in Had. cbn in Had. rewrite Had. cbn. by eexists.
    + destruct (ad !! "pagination") as [[| | | | |pg]|]; try discriminate; cbn;
        by eexists.
Qed.

Lemma CollectionResponse_built_iff_witness :
  (∃ c, CollectionResponse.__init__ (FromDocument (JDict page)) person_model = Ok c)
  ∧ ¬ (∃ c, CollectionResponse.__init__
              (FromDocument (JDict null_additional_data)) person_model
            = Ok c)
  ∧ ¬ (∃ c, CollectionResponse.__init__
              (FromDocument (JDict ill_typed)) person_model
            = Ok c).
Proof.
  split; [|split].
  - apply (CollectionResponse_built_iff (FromDocument (JDict page)) page);
      [reflexivity|]. repeat split; vm_compute; reflexivity.
  - intros Hbuilt.
    apply (CollectionResponse_built_iff
             (FromDocument (JDict null_additional_data))
             null_additional_data) in Hbuilt as (_ & _ & Hadd);
      [|reflexivity].
    vm_compute in Hadd. discriminate.
  - intros Hbuilt.
    apply (CollectionResponse_built_iff
             (FromDocument (JDict ill_typed)) ill_typed) in Hbuilt
      as (_ & Hconv & _);
      [|reflexivity].
    vm_compute in Hconv. discriminate.
Defined.




(** X5.  With [data] accepted and its entries converting, an
    [additional_data] that is null, a boolean or a number makes the
    constructor raise [TypeError] (the membership test needs a container),
    and a [pagination] that is present and not an object makes it raise
    [AttributeError] (it has no [get]). *)
Theorem CollectionResponse_additional_data_malformed
    (src : response_arg) (doc : gmap string json) (S : ModelClass) :
  decoded src = JDict doc →
  data_accepted doc = true →
  data_converts S doc = true →
  (∀ v, doc !! "additional_data" = Some v →
        v = JNull ∨ (∃ b, v = JBool b) ∨ (∃ n, v = JInt n) →
        CollectionResponse.__init__ src S = Raise (TypeError "not iterable"))
  ∧ (∀ additional_data pagination,
       doc !! "additional_data" = Some (JDict additional_data) →
       additional_data !! "pagination" = Some pagination →
       (∀ p, pagination ≠ JDict p) →
       CollectionResponse.__init__ src S = Raise (AttributeError "get")).
Proof.
  intros Hdoc Hdata Hconv.
  destruct (proj2 (iterate_accepted doc S) (conj Hdata Hconv))
    as (its & ms & Hits & Hms).
  unfold CollectionResponse.__init__.
  replace (match src with FromResponse r => json_ r | FromDocument d => d end)
    with (JDict doc) by (by destruct src).
  cbn -[iterate py_or comprehension]. rewrite Hits. cbn -[comprehension].
  rewrite Hms. cbn. split.
  - intros v -> Hv. cbn. by destruct Hv as [-> | [[b ->] | [n ->]]].
  - intros ad pg -> Hpg Hnot. cbn. rewrite Hpg. cbn.
    destruct pg; try done. by destruct (Hnot d).
Qed.

Lemma CollectionResponse_additional_data_malformed_witness :
  CollectionResponse.__init__
    (FromDocument (JDict null_additional_data)) person_model
  = Raise (TypeError "not iterable")
  ∧ CollectionResponse.__init__
      (FromDocument (JDict null_pagination)) person_model
    = Raise (AttributeError "get").
Proof.
  split.
  - destruct (CollectionResponse_additional_data_malformed
                (FromDocument (JDict null_additional_data))
                null_additional_data person_model eq_refl
                ltac:(vm_compute; reflexivity) ltac:(vm_compute; reflexivity))
      as [Hnull _].
    apply (Hnull JNull).
    + vm_compute. reflexivity.
    + by left.
  - destruct (CollectionResponse_additional_data_malformed
                (FromDocument (JDict null_pagination)) null_pagination
                person_model eq_refl ltac:(vm_compute; reflexivity)
                ltac:(vm_compute; reflexivity))
      as [_ Hpagination].
    apply (Hpagination {[ "pagination" := JNull ]} JNull).
    + vm_compute. reflexivity.
    + vm_compute. reflexivity.
    + discriminate.
Defined.

(** X6.  In every collection built from a document, [success] is the
    value the document has under [success], whatever it is, and false
    when the document has none. *)
Theorem CollectionResponse_success
    (src : response_arg) (doc : gmap string json) (S : ModelClass)
    (c : CollectionResponse.t) :
  decoded src = JDict doc →
  CollectionResponse.__init__ src S = Ok c →
  CollectionResponse.success c = default (JBool false) (doc !! "success")
  ∧ (doc !! "success" = None → CollectionResponse.success c = JBool false).
Proof.
  intros Hdoc Hc.
  destruct (init_Ok_inv _ _ _ _ Hdoc Hc) as (_ & _ & _ & Hsuccess & _).
  split; [done|]. intros Hnone. by rewrite Hsuccess, Hnone.
Qed.

Lemma CollectionResponse_success_witness :
  ∃ c, CollectionResponse.__init__ (FromDocument (JDict empty_document)) person_model
       = Ok c
       ∧ CollectionResponse.success c = JBool false.
Proof.
  destruct (init_total (FromDocument (JDict empty_document)) empty_document
              person_model eq_refl
              ltac:(vm_compute; reflexivity) ltac:(vm_compute; reflexivity)
              ltac:(vm_compute; reflexivity))
    as [c Hc].
  exists c. split; [exact Hc|].
  apply (CollectionResponse_success (FromDocument (JDict empty_document))
           empty_document person_model c eq_refl Hc).
  vm_compute. reflexivity.
Defined.

(** X7.  Indexing a collection of [n] items: a key from [-n] up to [-1]
    gives the item that the key plus [n] gives, a key from [-n] up to
    [n - 1] gives an item, and every other key raises [IndexError]; an
    empty collection raises on every key. *)
Theorem CollectionResponse_getitem_bounds (c : CollectionResponse.t) (key : Z) :
  let n := Z.of_nat (CollectionResponse.__len__ c) in
  ((-n ≤ key < 0)%Z →
   CollectionResponse.__getitem__ c key = CollectionResponse.__getitem__ c (key + n))
  ∧ ((-n ≤ key < n)%Z → ∃ m, CollectionResponse.__getitem__ c key = Ok m)
  ∧ ((key < -n ∨ n ≤ key)%Z →
     CollectionResponse.__getitem__ c key
     = Raise (IndexError "list index out of range")).
Proof.
  unfold CollectionResponse.__getitem__, CollectionResponse.__len__, list_getitem.
  cbv zeta. set (l := CollectionResponse.items c).
  assert (Hlookup : ∀ i : Z, (0 ≤ i < Z.of_nat (length l))%Z →
                             is_Some (l !! Z.to_nat i)).
  { intros i Hi. apply lookup_lt_is_Some. lia. }
  split; [|split].
  - intros Hkey.
    destruct (Z.ltb_spec key 0) as [_|?]; [|lia].
    destruct (Z.ltb_spec (key + Z.of_nat (length l)) 0) as [?|_]; [lia|].
    by destruct (Z.ltb_spec (key + Z.of_nat (length l)) 0) as [?|_]; [lia|].
  - intros Hkey. destruct (Z.ltb_spec key 0) as [Hneg|Hpos].
    + destruct (Z.ltb_spec (key + Z.of_nat (length l)) 0) as [?|_]; [lia|].
      destruct (Hlookup (key + Z.of_nat (length l))%Z) as [m ->]; [lia|].
      by exists m.
    + destruct (Z.ltb_spec key 0) as [?|_]; [lia|].
      destruct (Hlookup key) as [m ->]; [lia|]. by exists m.
  - intros Hkey. destruct (Z.ltb_spec key 0) as [Hneg|Hpos].
    + destruct (Z.ltb_spec (key + Z.of_nat (length l)) 0) as [_|?]; [done|lia].
    + destruct (Z.ltb_spec key 0) as [?|_]; [lia|].
      rewrite (lookup_ge_None_2 l (Z.to_nat key)); [done|lia].
Qed.

Lemma CollectionResponse_getitem_bounds_witness :
  CollectionResponse.__init__ (FromDocument (JDict two_nulls)) person_model
  = Ok two_nulls_collection
  ∧ CollectionResponse.__getitem__ two_nulls_collection (-1)
    = CollectionResponse.__getitem__ two_nulls_collection 1
  ∧ (∃ m, CollectionResponse.__getitem__ two_nulls_collection (-2) = Ok m)
  ∧ CollectionResponse.__getitem__ two_nulls_collection 2
    = Raise (IndexError "list index out of range").
Proof.
  split; [vm_compute; reflexivity|].
  split; [|split].
  - apply (proj1 (CollectionResponse_getitem_bounds two_nulls_collection (-1))).
    vm_compute. by split.
  - apply (proj1 (proj2 (CollectionResponse_getitem_bounds two_nulls_collection (-2)))).
    vm_compute. by split.
  - apply (proj2 (proj2 (CollectionResponse_getitem_bounds two_nulls_collection 2))).
    vm_compute. by right.
Defined.

(** ** The gateway *)

(** The world after [send_request] on a gateway that has a token, with a
    path: the dict [l] that [params or {}] gives has the token, the
    request is in the log of the transport, and a line is logged when the
    transport raises. *)
Lemma send_request_world
    (w : World) (self : loc) (token : string) (attrs : gmap string loc)
    (method p : string) (params : option loc) (data : json)
    (d : gmap string json) :
  heap w !! self = Some (OGateway (Some token) attrs) →
  token ≠ "" →
  params_dict w params = Some d →
  ∃ l w1,
    or_new_dict params w = (Ok l, w1)
    ∧ let req := {| req_method := method; req_url := BASE_URL ++ p;
                    req_params := <["api_token" := JStr token]> d;
                    req_data := data |} in
      PipedriveAPI_send_request self method (Some p) params data w
      = (transport w req,
         {| heap := <[l := ODict (<["api_token" := JStr token]> d)]> (heap w1);
            resource_registry := resource_registry w;
            transport := transport w;
            network := network w ++ [req];
            logged := match transport w req with
                      | Ok _ => logged w
                      | Raise e => logged w ++ ["Request failed: " ++ message e]
                      end |}).
Proof.
  intros Hself Htoken Hd.
  destruct (or_new_dict_run w params d Hd)
    as (l & w1 & Hor & Hl & Hkeep & Hreg & Htr & Hnet & Hlog & _).
  exists l, w1. split; [done|]. cbv zeta.
  unfold PipedriveAPI_send_request, getattr_api_token. run. rewrite Hself.
  destruct token as [|a token]; [done|]. run. rewrite Hor.
  assert (Hset : dict_setitem l "api_token" (JStr (String a token)) w1
                 = (Ok (), set_heap (<[l := ODict (<["api_token" := JStr (String a token)]> d)]>
                                       (heap w1)) w1))
    by (unfold dict_setitem; by rewrite Hl).
  rewrite run_bind, Hset. run.
  unfold try_except, requests_request. cbn. rewrite lookup_insert_eq.
  rewrite Htr, Hnet, Hreg, Hlog.
  by destruct (transport w _) as [r|e].
Qed.

(** The same without a path: the concatenation raises after the token
    was written and before the transport is called. *)
Lemma send_request_no_path
    (w : World) (self : loc) (token : string) (attrs : gmap string loc)
    (method : string) (params : option loc) (data : json)
    (d : gmap string json) :
  heap w !! self = Some (OGateway (Some token) attrs) →
  token ≠ "" →
  params_dict w params = Some d →
  ∃ l w1,
    or_new_dict params w = (Ok l, w1)
    ∧ PipedriveAPI_send_request self method None params data w
      = (Raise (TypeError "cannot concatenate"),
         {| heap := <[l := ODict (<["api_token" := JStr token]> d)]> (heap w1);
            resource_registry := resource_registry w;
            transport := transport w;
            network := network w;
            logged := logged w |}).
Proof.
  intros Hself Htoken Hd.
  destruct (or_new_dict_run w params d Hd)
    as (l & w1 & Hor & Hl & Hkeep & Hreg & Htr & Hnet & Hlog & _).
  exists l, w1. split; [done|].
  unfold PipedriveAPI_send_request, getattr_api_token. run. rewrite Hself.
  destruct token as [|a token]; [done|]. run. rewrite Hor.
  assert (Hset : dict_setitem l "api_token" (JStr (String a token)) w1
                 = (Ok (), set_heap (<[l := ODict (<["api_token" := JStr (String a token)]> d)]>
                                       (heap w1)) w1))
    by (unfold dict_setitem; by rewrite Hl).
  rewrite run_bind, Hset. run. unfold set_heap. by rewrite Htr, Hnet, Hreg, Hlog.
Qed.

(** X8.  On a gateway that has a token, a failure of the transport is
    logged once, as [Request failed:] followed by the message of the
    exception, and the same exception is raised again; the request was
    handed to the transport.  When the transport answers, nothing is
    logged. *)
Theorem send_request_transport_failure
    (w : World) (self : loc) (token : string) (attrs : gmap string loc)
    (method path : string) (params : option loc) (data : json)
    (d : gmap string json) :
  heap w !! self = Some (OGateway (Some token) attrs) →
  token ≠ "" →
  params_dict w params = Some d →
  let req := {| req_method := method; req_url := BASE_URL ++ path;
                req_params := <["api_token" := JStr token]> d;
                req_data := data |} in
  let out := PipedriveAPI_send_request self method (Some path) params data w in
  network out.2 = (network w ++ [req])%list
  ∧ (∀ e, transport w req = Raise e →
          out.1 = Raise e
          ∧ logged out.2
            = (logged w ++ [("Request failed: " ++ message e)%string])%list)
  ∧ (∀ r, transport w req = Ok r →
          out.1 = Ok r ∧ logged out.2 = logged w).
Proof.
  intros Hself Htoken Hd.
  destruct (send_request_world w self token attrs method path params data d
              Hself Htoken Hd) as (l & w1 & _ & Hrun).
  cbv zeta in *. rewrite Hrun. cbn. split; [done|].
  split; intros x Hx; by rewrite Hx.
Qed.

Lemma send_request_transport_failure_witness :
  let req := {| req_method := "GET"; req_url := BASE_URL ++ "/deals";
                req_params := <["api_token" := JStr "tok"]> {[ "a" := JInt 1 ]};
                req_data := JNull |} in
  let out := PipedriveAPI_send_request 1%positive "GET" (Some "/deals")
               (Some 3%positive) JNull world_down in
  out.1 = Raise (TransportError "connection refused")
  ∧ logged out.2 = ["Request failed: connection refused"]
  ∧ network out.2 = [req].
Proof.
  destruct (send_request_transport_failure world_down 1%positive "tok"
              {[ "deals" := 5%positive ]} "GET" "/deals" (Some 3%positive) JNull
              {[ "a" := JInt 1 ]})
    as (Hnet & Hfail & _).
  - vm_compute. reflexivity.
  - discriminate.
  - vm_compute. reflexivity.
  - destruct (Hfail (TransportError "connection refused") eq_refl) as [Hout Hlog].
    cbv zeta. split; [exact Hout|]. split; [exact Hlog | exact Hnet].
Defined.

(** When [params] names something that is no dict, nothing is written. *)
Lemma send_request_bad_params
    (w : World) (self : loc) (method : string) (path : option string)
    (params : option loc) (data : json) :
  params_dict w params = None →
  (PipedriveAPI_send_request self method path params data w).2 = w.
Proof.
  intros Hd.
  destruct (heap w !! self) as [[|api_token attrs|]|] eqn:Hself.
  1,3,4: unfold PipedriveAPI_send_request, getattr_api_token; run;
    by rewrite Hself.
  destruct api_token as [token|].
  2: by rewrite (send_request_mock w self None attrs method path
                   params data Hself (or_introl eq_refl)).
  destruct (decide (token = "")) as [->|Htoken].
  { by rewrite (send_request_mock w self (Some "") attrs method path
                  params data Hself (or_intror eq_refl)). }
  destruct params as [l0|]; [|done]. cbn in Hd.
  unfold PipedriveAPI_send_request, getattr_api_token. run. rewrite Hself.
  destruct token as [|a token]; [done|]. run.
  unfold or_new_dict, deref. rewrite ?run_bind.
  destruct (heap w !! l0) as [[d| |]|] eqn:Hl0; try discriminate; cbn;
    unfold dict_setitem; rewrite ?run_bind; cbv beta; by rewrite ?Hl0.
Qed.

Lemma send_request_registry
    (w : World) (self : loc) (method : string) (path : option string)
    (params : option loc) (data : json) :
  resource_registry (PipedriveAPI_send_request self method path params data w).2
  = resource_registry w.
Proof.
  destruct (params_dict w params) as [d|] eqn:Hd;
    [|by rewrite send_request_bad_params].
  destruct (heap w !! self) as [[|api_token attrs|]|] eqn:Hself.
  1,3,4: unfold PipedriveAPI_send_request, getattr_api_token; run;
    by rewrite Hself.
  destruct api_token as [token|].
  2: by rewrite (send_request_mock w self None attrs method path
                   params data Hself (or_introl eq_refl)).
  destruct (decide (token = "")) as [->|Htoken].
  { by rewrite (send_request_mock w self (Some "") attrs method path
                  params data Hself (or_intror eq_refl)). }
  destruct path as [p|].
  - destruct (send_request_world w self token attrs method p params data d
                Hself Htoken Hd) as (l & w1 & _ & Hrun).
    cbv zeta in Hrun. by rewrite Hrun.
  - destruct (send_request_no_path w self token attrs method params data d
                Hself Htoken Hd) as (l & w1 & _ & Hrun).
    by rewrite Hrun.
Qed.

(** X9.  [send_request] never changes the registry, never changes an
    object of the store other than the dict passed as [params], and in
    particular leaves the gateway with its token and its attributes. *)
Theorem send_request_writes_params_only
    (w : World) (self : loc) (method : string) (path : option string)
    (params : option loc) (data : json) :
  let w' := (PipedriveAPI_send_request self method path params data w).2 in
  resource_registry w' = resource_registry w
  ∧ (∀ l o, heap w !! l = Some o → params ≠ Some l → heap w' !! l = Some o)
  ∧ (∀ api_token attrs,
       heap w !! self = Some (OGateway api_token attrs) →
       heap w' !! self = Some (OGateway api_token attrs)).
Proof.
  cbv zeta. split; [apply send_request_registry|]. split.
  - intros l o Hl Hparams. by apply send_request_frame.
  - intros api_token attrs Hself.
    destruct (decide (params = Some self)) as [->|Hne].
    + rewrite send_request_bad_params; [done|]. cbn. by rewrite Hself.
    + by apply send_request_frame.
Qed.

Lemma send_request_writes_params_only_witness :
  let w' := (PipedriveAPI_send_request 1%positive "GET" (Some "/deals")
               (Some 3%positive) JNull world1).2 in
  resource_registry w' = resource_registry world1
  ∧ heap w' !! 2%positive = Some (ODict ∅)
  ∧ heap w' !! 1%positive
    = Some (OGateway (Some "tok") {[ "deals" := 5%positive ]}).
Proof.
  destruct (send_request_writes_params_only world1 1%positive "GET" (Some "/deals")
              (Some 3%positive) JNull) as (Hreg & Hframe & Hself).
  cbv zeta. split; [exact Hreg|]. split.
  - apply Hframe; [vm_compute; reflexivity | discriminate].
  - apply Hself. vm_compute. reflexivity.
Defined.

(** ** Resource clients *)

(** The hooks of [BaseResource] do nothing: the client's [send_request]
    is the gateway's. *)
Lemma resource_send_request_eq
    (w : World) (self : loc) (cls : ResourceClass) (api : loc)
    (method : string) (path : option string) (params : option loc) (data : json) :
  heap w !! self = Some (OResource cls api) →
  BaseResource_send_request self method path params data w
  = PipedriveAPI_send_request api method path params data w.
Proof.
  intros Hself. unfold BaseResource_send_request. rewrite run_bind.
  unfold getattr_api at 1. rewrite Hself. rewrite run_bind.
  destruct (PipedriveAPI_send_request api method path params data w)
    as [[response|e] w']; [|done].
  rewrite run_bind. by destruct (ok response).
Qed.

(** X10.  [_create] and [_list] on a client whose gateway has a token
    send one request to the list path of the class, [POST] for [_create]
    and [GET] for [_list], with the caller's parameters and the token, and
    return what the transport answers. *)
Theorem create_list_request
    (w : World) (self : loc) (cls : ResourceClass) (api : loc)
    (token : string) (attrs : gmap string loc) (path : string)
    (params : option loc) (data : json) (d : gmap string json) :
  heap w !! self = Some (OResource cls api) →
  heap w !! api = Some (OGateway (Some token) attrs) →
  token ≠ "" →
  LIST_REQ_PATH cls = Some path →
  params_dict w params = Some d →
  let req method := {| req_method := method; req_url := BASE_URL ++ path;
                       req_params := <["api_token" := JStr token]> d;
                       req_data := data |} in
  let created := BaseResource_create self params data w in
  let listed := BaseResource_list self params data w in
  created.1 = transport w (req "POST")
  ∧ network created.2 = (network w ++ [req "POST"])%list
  ∧ listed.1 = transport w (req "GET")
  ∧ network listed.2 = (network w ++ [req "GET"])%list.
Proof.
  intros Hself Hapi Htoken Hpath Hd. cbv zeta.
  unfold BaseResource_create, BaseResource_list. rewrite !run_bind.
  unfold class_of. rewrite Hself, Hpath.
  rewrite !(resource_send_request_eq w self cls api) by done.
  destruct (send_request_world w api token attrs "POST" path params data d
              Hapi Htoken Hd) as (l & w1 & _ & ->).
  destruct (send_request_world w api token attrs "GET" path params data d
              Hapi Htoken Hd) as (l' & w1' & _ & ->).
  done.
Qed.

Lemma create_list_request_witness :
  let req method := {| req_method := method; req_url := BASE_URL ++ "/deals";
                       req_params := <["api_token" := JStr "tok"]> {[ "a" := JInt 1 ]};
                       req_data := JStr "body" |} in
  let created := BaseResource_create 5%positive (Some 3%positive) (JStr "body") world1 in
  let listed := BaseResource_list 5%positive (Some 3%positive) (JStr "body") world1 in
  created.1 = transport world1 (req "POST")
  ∧ network created.2 = (network world1 ++ [req "POST"])%list
  ∧ listed.1 = transport world1 (req "GET")
  ∧ network listed.2 = (network world1 ++ [req "GET"])%list.
Proof.
  apply (create_list_request world1 5%positive deals_full 1%positive "tok"
           {[ "deals" := 5%positive ]} "/deals").
  - vm_compute. reflexivity.
  - vm_compute. reflexivity.
  - discriminate.
  - reflexivity.
  - vm_compute. reflexivity.
Defined.

(** X11.  On a client whose class has no list path (the default of
    [BaseResource]), [_create] and [_list] raise [TypeError] when the
    gateway has a token: the path is added to the base URL before the
    transport is tried, so nothing is sent and nothing is logged.  When
    the gateway has no token they return the mock response. *)
Theorem create_list_without_path
    (w : World) (self : loc) (cls : ResourceClass) (api : loc)
    (api_token : option string) (attrs : gmap string loc)
    (params : option loc) (data : json) (d : gmap string json) :
  heap w !! self = Some (OResource cls api) →
  heap w !! api = Some (OGateway api_token attrs) →
  LIST_REQ_PATH cls = None →
  params_dict w params = Some d →
  let created := BaseResource_create self params data w in
  let listed := BaseResource_list self params data w in
  match api_token with
  | None | Some "" =>
      created = (Ok MockResponse, w) ∧ listed = (Ok MockResponse, w)
  | Some _ =>
      created.1 = Raise (TypeError "cannot concatenate")
      ∧ listed.1 = Raise (TypeError "cannot concatenate")
      ∧ network created.2 = network w ∧ logged created.2 = logged w
      ∧ network listed.2 = network w ∧ logged listed.2 = logged w
  end.
Proof.
  intros Hself Hapi Hpath Hd. cbv zeta.
  unfold BaseResource_create, BaseResource_list. rewrite !run_bind.
  unfold class_of. rewrite Hself, Hpath.
  rewrite !(resource_send_request_eq w self cls api) by done.
  destruct api_token as [token|].
  2: { by rewrite !(send_request_mock w api None attrs _ None params data Hapi
                      (or_introl eq_refl)). }
  destruct (decide (token = "")) as [->|Htoken].
  { by rewrite !(send_request_mock w api (Some "") attrs _ None params data Hapi
                   (or_intror eq_refl)). }
  destruct token as [|a token]; [done|].
  destruct (send_request_no_path w api (String a token) attrs "POST" params data d
              Hapi Htoken Hd) as (l & w1 & _ & ->).
  destruct (send_request_no_path w api (String a token) attrs "GET" params data d
              Hapi Htoken Hd) as (l' & w1' & _ & ->).
  done.
Qed.

Lemma create_list_without_path_witness :
  let created := BaseResource_create 6%positive None JNull world1 in
  let listed := BaseResource_list 6%positive None JNull world1 in
  created.1 = Raise (TypeError "cannot concatenate")
  ∧ listed.1 = Raise (TypeError "cannot concatenate")
  ∧ network created.2 = network world1 ∧ logged created.2 = logged world1
  ∧ network listed.2 = network world1 ∧ logged listed.2 = logged world1.
Proof.
  apply (create_list_without_path world1 6%positive base_resource 1%positive
           (Some "tok") {[ "deals" := 5%positive ]} None JNull ∅).
  - vm_compute. reflexivity.
  - vm_compute. reflexivity.
  - reflexivity.
  - reflexivity.
Defined.

(** X12.  [_find] on a client whose gateway has a token sends one [GET]
    request to the find path of the class; its parameters are the
    caller's with the search term under [term] and the token under
    [api_token], each replacing an entry the caller had under that key. *)
Theorem find_request
    (w : World) (self : loc) (cls : ResourceClass) (api : loc)
    (token : string) (attrs : gmap string loc) (path : string)
    (term : json) (params : option loc) (data : json) (d : gmap string json) :
  heap w !! self = Some (OResource cls api) →
  heap w !! api = Some (OGateway (Some token) attrs) →
  token ≠ "" →
  FIND_REQ_PATH cls = Some path →
  params_dict w params = Some d →
  let req := {| req_method := "GET"; req_url := BASE_URL ++ path;
                req_params := <["api_token" := JStr token]> (<["term" := term]> d);
                req_data := data |} in
  let found := BaseResource_find self term params data w in
  found.1 = transport w req
  ∧ network found.2 = (network w ++ [req])%list.
Proof.
  intros Hself Hapi Htoken Hpath Hd. cbv zeta.
  set (req := {| req_method := "GET"; req_url := BASE_URL ++ path;
                 req_params := <["api_token" := JStr token]> (<["term" := term]> d);
                 req_data := data |}).
  assert (∃ w', BaseResource_find self term params data w = (transport w req, w')
                ∧ network w' = (network w ++ [req])%list) as (w' & -> & Hw');
    [|done].
  destruct (or_new_dict_run w params d Hd)
    as (l & w1 & Hor & Hl & Hkeep & Hreg & Htr & Hnet & Hlog & Hcases).
  unfold BaseResource_find. rewrite run_bind, Hor, run_bind.
  unfold dict_setitem at 1. rewrite Hl.
  set (w2 := set_heap (<[l := ODict (<["term" := term]> d)]> (heap w1)) w1).
  assert (Hl2 : heap w2 !! l = Some (ODict (<["term" := term]> d)))
    by apply lookup_insert_eq.
  assert (Hother : ∀ l' o, heap w !! l' = Some o → (∀ d', o ≠ ODict d') →
                           heap w2 !! l' = Some o).
  { intros l' o Hl' Hnot. unfold w2. cbn. rewrite lookup_insert_ne.
    - by apply Hkeep.
    - intros <-. apply Hkeep in Hl'. rewrite Hl in Hl'. injection Hl' as <-.
      by apply (Hnot d). }
  assert (Hself2 : heap w2 !! self = Some (OResource cls api))
    by (by apply Hother).
  assert (Hapi2 : heap w2 !! api = Some (OGateway (Some token) attrs))
    by (by apply Hother).
  rewrite run_bind. unfold class_of at 1. rewrite Hself2, Hpath.
  rewrite (resource_send_request_eq w2 self cls api) by done.
  destruct (send_request_world w2 api token attrs "GET" path (Some l) data
              (<["term" := term]> d) Hapi2 Htoken) as (l' & w3 & _ & ->).
  { cbn [params_dict]. by rewrite Hl2. }
  eexists. unfold w2, req. cbn. rewrite Htr, Hnet. by split.
Qed.

Lemma find_request_witness :
  let req := {| req_method := "GET"; req_url := BASE_URL ++ "/deals/find";
                req_params := <["api_token" := JStr "tok"]>
                                (<["term" := JStr "ann"]> ∅);
                req_data := JNull |} in
  let found := BaseResource_find 5%positive (JStr "ann") None JNull world1 in
  found.1 = transport world1 req
  ∧ network found.2 = (network world1 ++ [req])%list.
Proof.
  apply (find_request world1 5%positive deals_full 1%positive "tok"
           {[ "deals" := 5%positive ]} "/deals/find").
  - vm_compute. reflexivity.
  - vm_compute. reflexivity.
  - discriminate.
  - reflexivity.
  - reflexivity.
Defined.

Section template_properties.

Variable str_format : string → list (string * json) → result string.

Lemma template_format_Ok (template p : string) kwargs (w : World) :
  str_format template kwargs = Ok p →
  template_format str_format (Some template) kwargs w = (Ok p, w).
Proof. intros Hp. unfold template_format, lift. by rewrite Hp. Qed.

(** With a path from the template, each verb is the gateway's
    [send_request] with its method. *)
Lemma detail_verbs_run
    (w : World) (self : loc) (cls : ResourceClass) (api : loc)
    (template path : string) (resource_ids : json)
    (params : option loc) (data : json) :
  heap w !! self = Some (OResource cls api) →
  DETAIL_REQ_PATH cls = Some template →
  str_format template [("id", resource_ids)] = Ok path →
  BaseResource_delete str_format self resource_ids params data w
  = PipedriveAPI_send_request api "DELETE" (Some path) params data w
  ∧ BaseResource_update str_format self resource_ids params data w
    = PipedriveAPI_send_request api "PUT" (Some path) params data w
  ∧ BaseResource_detail str_format self resource_ids params data w
    = PipedriveAPI_send_request api "GET" (Some path) params data w.
Proof.
  intros Hself Htemplate Hpath.
  unfold BaseResource_delete, BaseResource_update, BaseResource_detail.
  rewrite !(run_bind (class_of self)). unfold class_of. rewrite Hself.
  cbv beta iota. rewrite !run_bind, Htemplate.
  rewrite (template_format_Ok _ _ _ _ Hpath). cbv beta iota.
  by rewrite !(resource_send_request_eq w self cls api) by done.
Qed.

Lemma related_entities_run
    (w : World) (self : loc) (cls : ResourceClass) (api : loc)
    (template path : string) (resource_ids entity_name : json)
    (entity_class : ModelClass) (params : option loc) (data : json) :
  heap w !! self = Some (OResource cls api) →
  RELATED_ENTITIES_PATH cls = Some template →
  str_format template [("id", resource_ids); ("entity", entity_name)] = Ok path →
  BaseResource_related_entities str_format self resource_ids entity_name
    entity_class params data w
  = match PipedriveAPI_send_request api "GET" (Some path) params data w with
    | (Ok response, w') =>
        (CollectionResponse.__init__ (FromResponse response) entity_class, w')
    | (Raise e, w') => (Raise e, w')
    end.
Proof.
  intros Hself Htemplate Hpath. unfold BaseResource_related_entities.
  rewrite (run_bind (class_of self)). unfold class_of. rewrite Hself.
  cbv beta iota. rewrite run_bind, Htemplate.
  rewrite (template_format_Ok _ _ _ _ Hpath). cbv beta iota.
  rewrite run_bind.
  by rewrite (resource_send_request_eq w self cls api) by done.
Qed.

(** X13.  [_delete], [_update] and [_detail] on a client whose gateway
    has a token send one request, [DELETE], [PUT] and [GET] in this order,
    to the path that the detail template gives for the identifier, with
    the caller's parameters and the token, and return what the transport
    answers. *)
Theorem detail_verbs_request
    (w : World) (self : loc) (cls : ResourceClass) (api : loc)
    (token : string) (attrs : gmap string loc) (template path : string)
    (resource_ids : json) (params : option loc) (data : json)
    (d : gmap string json) :
  heap w !! self = Some (OResource cls api) →
  heap w !! api = Some (OGateway (Some token) attrs) →
  token ≠ "" →
  DETAIL_REQ_PATH cls = Some template →
  str_format template [("id", resource_ids)] = Ok path →
  params_dict w params = Some d →
  let req method := {| req_method := method; req_url := BASE_URL ++ path;
                       req_params := <["api_token" := JStr token]> d;
                       req_data := data |} in
  let deleted := BaseResource_delete str_format self resource_ids params data w in
  let updated := BaseResource_update str_format self resource_ids params data w in
  let detail := BaseResource_detail str_format self resource_ids params data w in
  deleted.1 = transport w (req "DELETE")
  ∧ network deleted.2 = (network w ++ [req "DELETE"])%list
  ∧ updated.1 = transport w (req "PUT")
  ∧ network updated.2 = (network w ++ [req "PUT"])%list
  ∧ detail.1 = transport w (req "GET")
  ∧ network detail.2 = (network w ++ [req "GET"])%list.
Proof.
  intros Hself Hapi Htoken Htemplate Hpath Hd. cbv zeta.
  destruct (detail_verbs_run w self cls api template path resource_ids params data
              Hself Htemplate Hpath) as (-> & -> & ->).
  destruct (send_request_world w api token attrs "DELETE" path params data d
              Hapi Htoken Hd) as (l1 & w1 & _ & ->).
  destruct (send_request_world w api token attrs "PUT" path params data d
              Hapi Htoken Hd) as (l2 & w2 & _ & ->).
  destruct (send_request_world w api token attrs "GET" path params data d
              Hapi Htoken Hd) as (l3 & w3 & _ & ->).
  done.
Qed.

(** X14.  When the class has no template ([None] has no [format]:
    [AttributeError]) or the formatter raises, [_delete], [_update],
    [_detail] and [_related_entities] raise that exception before
    anything else happens: the world is as it was, with or without a
    token on the gateway. *)
Theorem verbs_without_path
    (w : World) (self : loc) (cls : ResourceClass) (api : loc)
    (resource_ids entity_name : json) (entity_class : ModelClass)
    (params : option loc) (data : json) :
  heap w !! self = Some (OResource cls api) →
  (∀ e,
     (DETAIL_REQ_PATH cls = None ∧ e = AttributeError "format")
     ∨ (∃ t, DETAIL_REQ_PATH cls = Some t
             ∧ str_format t [("id", resource_ids)] = Raise e) →
     BaseResource_delete str_format self resource_ids params data w = (Raise e, w)
     ∧ BaseResource_update str_format self resource_ids params data w = (Raise e, w)
     ∧ BaseResource_detail str_format self resource_ids params data w = (Raise e, w))
  ∧ (∀ e,
       (RELATED_ENTITIES_PATH cls = None ∧ e = AttributeError "format")
       ∨ (∃ t, RELATED_ENTITIES_PATH cls = Some t
               ∧ str_format t [("id", resource_ids); ("entity", entity_name)]
                 = Raise e) →
       BaseResource_related_entities str_format self resource_ids entity_name
         entity_class params data w
       = (Raise e, w)).
Proof.
  intros Hself. split.
  - intros e He.
    unfold BaseResource_delete, BaseResource_update, BaseResource_detail.
    rewrite !run_bind. unfold class_of. rewrite Hself.
    destruct He as [[-> ->] | (t & -> & Ht)]; [done|].
    unfold template_format, lift. by rewrite Ht.
  - intros e He. unfold BaseResource_related_entities.
    rewrite !run_bind. unfold class_of. rewrite Hself.
    destruct He as [[-> ->] | (t & -> & Ht)]; [done|].
    unfold template_format, lift. by rewrite Ht.
Qed.

(** X15.  [_related_entities] on a client whose gateway has no token
    returns an empty collection: no items, [success] false and the cursor
    unset; nothing is sent and the world is as it was. *)
Theorem related_entities_offline
    (w : World) (self : loc) (cls : ResourceClass) (api : loc)
    (api_token : option string) (attrs : gmap string loc) (template path : string)
    (resource_ids entity_name : json) (entity_class : ModelClass)
    (params : option loc) (data : json) :
  heap w !! self = Some (OResource cls api) →
  heap w !! api = Some (OGateway api_token attrs) →
  api_token = None ∨ api_token = Some "" →
  RELATED_ENTITIES_PATH cls = Some template →
  str_format template [("id", resource_ids); ("entity", entity_name)] = Ok path →
  BaseResource_related_entities str_format self resource_ids entity_name
    entity_class params data w
  = (Ok {| CollectionResponse.items := [];
           CollectionResponse.success := JBool false;
           CollectionResponse.start := JNull;
           CollectionResponse.limit := JNull;
           CollectionResponse.next_start := JNull;
           CollectionResponse.more_items_in_collection := JNull |}, w).
Proof.
  intros Hself Hapi Htoken Htemplate Hpath.
  rewrite (related_entities_run w self cls api template path resource_ids
             entity_name entity_class params data Hself Htemplate Hpath).
  by rewrite (send_request_mock w api api_token attrs "GET" (Some path) params data
                Hapi Htoken).
Qed.

(** X16.  [_related_entities] on a client whose gateway has a token
    sends one [GET] request to the path that the template gives for the
    identifier and the entity name.  When the transport raises, so does the
    call; when it answers, the outcome is the collection built from the
    answer with the class passed as [entity_class]: the entries of [data]
    are projected onto that class, not onto the model class of the
    client. *)
Theorem related_entities_request
    (w : World) (self : loc) (cls : ResourceClass) (api : loc)
    (token : string) (attrs : gmap string loc) (template path : string)
    (resource_ids entity_name : json) (entity_class : ModelClass)
    (params : option loc) (data : json) (d : gmap string json) :
  heap w !! self = Some (OResource cls api) →
  heap w !! api = Some (OGateway (Some token) attrs) →
  token ≠ "" →
  RELATED_ENTITIES_PATH cls = Some template →
  str_format template [("id", resource_ids); ("entity", entity_name)] = Ok path →
  params_dict w params = Some d →
  let req := {| req_method := "GET"; req_url := BASE_URL ++ path;
                req_params := <["api_token" := JStr token]> d;
                req_data := data |} in
  let related := BaseResource_related_entities str_format self resource_ids
                   entity_name entity_class params data w in
  network related.2 = (network w ++ [req])%list
  ∧ (∀ e, transport w req = Raise e → related.1 = Raise e)
  ∧ (∀ r, transport w req = Ok r →
          related.1 = CollectionResponse.__init__ (FromResponse r) entity_class
          ∧ ∀ doc ds c,
              json_ r = JDict doc → doc !! "data" = Some (JList ds) →
              related.1 = Ok c →
              Forall2 (λ item m, dict_to_model item entity_class = Ok m)
                      ds (CollectionResponse.items c)).
Proof.
  intros Hself Hapi Htoken Htemplate Hpath Hd. cbv zeta.
  rewrite (related_entities_run w self cls api template path resource_ids
             entity_name entity_class params data Hself Htemplate Hpath).
  destruct (send_request_world w api token attrs "GET" path params data d
              Hapi Htoken Hd) as (l & w1 & _ & ->).
  destruct (transport w _) as [r|e]; cbn.
  - split; [done|]. split; [done|]. intros r' [= <-]. split; [done|].
    intros doc ds c Hdoc Hds Hc.
    destruct (init_Ok_inv (FromResponse r) doc entity_class c Hdoc Hc)
      as (its & Hits & Hms & _).
    rewrite (iterate_data_list _ _ Hds) in Hits. injection Hits as <-.
    by apply comprehension_Forall2.
  - split; [done|]. split; [|done]. by intros e' [= <-].
Qed.

End template_properties.

Lemma detail_verbs_request_witness :
  let req method := {| req_method := method; req_url := BASE_URL ++ "/deals/7";
                       req_params := <["api_token" := JStr "tok"]> {[ "a" := JInt 1 ]};
                       req_data := JNull |} in
  let deleted := BaseResource_delete example_format 5%positive (JInt 7)
                   (Some 3%positive) JNull world1 in
  let updated := BaseResource_update example_format 5%positive (JInt 7)
                   (Some 3%positive) JNull world1 in
  let detail := BaseResource_detail example_format 5%positive (JInt 7)
                  (Some 3%positive) JNull world1 in
  deleted.1 = transport world1 (req "DELETE")
  ∧ network deleted.2 = (network world1 ++ [req "DELETE"])%list
  ∧ updated.1 = transport world1 (req "PUT")
  ∧ network updated.2 = (network world1 ++ [req "PUT"])%list
  ∧ detail.1 = transport world1 (req "GET")
  ∧ network detail.2 = (network world1 ++ [req "GET"])%list.
Proof.
  apply (detail_verbs_request example_format world1 5%positive deals_full 1%positive
           "tok" {[ "deals" := 5%positive ]} "/deals/{id}" "/deals/7").
  - vm_compute. reflexivity.
  - vm_compute. reflexivity.
  - discriminate.
  - reflexivity.
  - reflexivity.
  - vm_compute. reflexivity.
Defined.

Lemma verbs_without_path_witness :
  BaseResource_detail example_format 6%positive (JInt 7) None JNull world1
  = (Raise (AttributeError "format"), world1)
  ∧ BaseResource_related_entities example_format 5%positive (JInt 8)
      (JStr "persons") person_model None JNull world1
    = (Raise (KeyError "id"), world1).
Proof.
  split.
  - destruct (verbs_without_path example_format world1 6%positive base_resource
                1%positive (JInt 7) (JStr "persons") person_model None JNull)
      as [Hdetail _]; [vm_compute; reflexivity|].
    apply (Hdetail (AttributeError "format")). by left.
  - destruct (verbs_without_path example_format world1 5%positive deals_full
                1%positive (JInt 8) (JStr "persons") person_model None JNull)
      as [_ Hrelated]; [vm_compute; reflexivity|].
    apply (Hrelated (KeyError "id")). right.
    exists "/deals/{id}/{entity}". by split.
Defined.

Lemma related_entities_offline_witness :
  BaseResource_related_entities example_format 7%positive (JInt 7) (JStr "persons")
    person_model (Some 3%positive) JNull world1
  = (Ok empty_collection, world1).
Proof.
  apply (related_entities_offline example_format world1 7%positive deals_full
           4%positive None {[ "deals" := 7%positive ]}
           "/deals/{id}/{entity}" "/deals/7/persons").
  - vm_compute. reflexivity.
  - vm_compute. reflexivity.
  - by left.
  - reflexivity.
  - reflexivity.
Defined.

Lemma related_entities_request_witness :
  let req := {| req_method := "GET"; req_url := BASE_URL ++ "/deals/7/persons";
                req_params := <["api_token" := JStr "tok"]> {[ "a" := JInt 1 ]};
                req_data := JNull |} in
  let related := BaseResource_related_entities example_format 5%positive (JInt 7)
                   (JStr "persons") contact_model (Some 3%positive) JNull world1 in
  network related.2 = (network world1 ++ [req])%list
  ∧ related.1 = CollectionResponse.__init__
                  (FromResponse {| ok := true; json_ := JDict page |}) contact_model.
Proof.
  destruct (related_entities_request example_format world1 5%positive deals_full
              1%positive "tok" {[ "deals" := 5%positive ]}
              "/deals/{id}/{entity}" "/deals/7/persons" (JInt 7) (JStr "persons")
              contact_model (Some 3%positive) JNull {[ "a" := JInt 1 ]})
    as (Hnet & _ & Hanswer).
  - vm_compute. reflexivity.
  - vm_compute. reflexivity.
  - discriminate.
  - reflexivity.
  - reflexivity.
  - vm_compute. reflexivity.
  - cbv zeta. split; [exact Hnet|].
    apply (Hanswer {| ok := true; json_ := JDict page |}). reflexivity.
Defined.

(** ** The registry *)

(** What [__getattr__] does for a registered name: the world after it. *)
Lemma getattr_registered
    (w : World) (self : loc) (api_token : option string) (attrs : gmap string loc)
    (item : string) (cls : ResourceClass) :
  heap w !! self = Some (OGateway api_token attrs) →
  resource_registry w !! item = Some cls →
  let client := fresh (dom (heap w)) in
  PipedriveAPI_getattr self item w
  = (Ok client,
     set_heap (<[self := OGateway api_token (<[API_ACESSOR_NAME cls := client]> attrs)]>
                 (<[client := OResource cls self]> (heap w))) w).
Proof.
  intros Hself Hitem. cbv zeta.
  unfold PipedriveAPI_getattr, try_except, registry_getitem. rewrite run_bind.
  rewrite Hitem. unfold BaseResource_init. rewrite run_bind. unfold alloc at 1.
  assert (Hne : self ≠ fresh (dom (heap w))) by (by apply (fresh_loc_ne w self _ Hself)).
  rewrite run_bind. unfold setattr. cbn.
  rewrite lookup_insert_ne by done. by rewrite Hself.
Qed.

(** X17.  Registration and resolution fit: after [register_resource] of
    a class whose accessor name is a plain attribute name, [__getattr__]
    of that name on any gateway gives a new client of that class, one
    that was not in the store before, whatever the registry had under that
    name before; registration changes no other name of the registry and
    nothing in the store. *)
Theorem register_then_getattr
    (w : World) (self : loc) (api_token : option string) (attrs : gmap string loc)
    (cls : ResourceClass) :
  heap w !! self = Some (OGateway api_token attrs) →
  API_ACESSOR_NAME cls ∉ gateway_names →
  let w1 := (PipedriveAPI_register_resource cls w).2 in
  heap w1 = heap w
  ∧ (∀ name, name ≠ API_ACESSOR_NAME cls →
             resource_registry w1 !! name = resource_registry w !! name)
  ∧ ∃ client w2,
      PipedriveAPI_getattr self (API_ACESSOR_NAME cls) w1 = (Ok client, w2)
      ∧ heap w !! client = None
      ∧ heap w1 !! client = None
      ∧ heap w2 !! client = Some (OResource cls self)
      ∧ heap w2 !! self
        = Some (OGateway api_token (<[API_ACESSOR_NAME cls := client]> attrs)).
Proof.
  intros Hself _. cbv zeta. cbn. split; [done|]. split.
  - intros name Hname. by rewrite lookup_insert_ne.
  - eexists _, _.
    split; [apply (getattr_registered _ self api_token attrs _ cls);
            [done | apply lookup_insert_eq]|].
    cbn. split; [apply fresh_loc_unused|]. split; [apply fresh_loc_unused|].
    split; [|apply lookup_insert_eq].
    rewrite lookup_insert_ne; [apply lookup_insert_eq|].
    by apply (fresh_loc_ne w self _ Hself).
Qed.

Lemma register_then_getattr_witness :
  let w1 := (PipedriveAPI_register_resource base_resource world1).2 in
  heap w1 = heap world1
  ∧ (∀ name, name ≠ "" →
             resource_registry w1 !! name = resource_registry world1 !! name)
  ∧ ∃ client w2,
      PipedriveAPI_getattr 4%positive "" w1 = (Ok client, w2)
      ∧ heap world1 !! client = None
      ∧ heap w1 !! client = None
      ∧ heap w2 !! client = Some (OResource base_resource 4%positive)
      ∧ heap w2 !! 4%positive
        = Some (OGateway None (<["" := client]> {[ "deals" := 7%positive ]})).
Proof.
  apply (register_then_getattr world1 4%positive None {[ "deals" := 7%positive ]}
           base_resource).
  - vm_compute. reflexivity.
  - vm_compute. intros H. repeat (apply elem_of_cons in H as [H|H]; [discriminate|]).
    by apply elem_of_nil in H.
Defined.



(** X19.  The pieces fit, in any world: make a gateway with a token,
    register a class that has a list path and whose accessor name is a
    plain attribute name (not one that the gateway reads on itself, which
    the client would replace), resolve its accessor name on the gateway
    and [_list] on the client without parameters.  One [GET]
    request goes to the base URL followed by the list path, with the
    token as only parameter, and the outcome is what the transport
    answers.  With [None] for the token, the outcome is the mock response
    and nothing is sent. *)
Theorem gateway_register_resolve_list
    (w : World) (api_token : option string) (cls : ResourceClass) (path : string) :
  LIST_REQ_PATH cls = Some path →
  API_ACESSOR_NAME cls ∉ gateway_names →
  let session : M Response :=
    api ← PipedriveAPI_init api_token;
    PipedriveAPI_register_resource cls;;
    client ← PipedriveAPI_getattr api (API_ACESSOR_NAME cls);
    BaseResource_list client None JNull in
  match api_token with
  | None | Some "" =>
      (session w).1 = Ok MockResponse ∧ network (session w).2 = network w
  | Some token =>
      let req := {| req_method := "GET"; req_url := BASE_URL ++ path;
                    req_params := {[ "api_token" := JStr token ]};
                    req_data := JNull |} in
      (session w).1 = transport w req
      ∧ network (session w).2 = (network w ++ [req])%list
  end.
Proof.
  intros Hpath _. cbv zeta.
  set (session := PipedriveAPI_init api_token ≫= _).
  assert (∃ api attrs w3,
            session w = PipedriveAPI_send_request api "GET" (Some path) None JNull w3
            ∧ heap w3 !! api = Some (OGateway api_token attrs)
            ∧ transport w3 = transport w
            ∧ network w3 = network w)
    as (api & attrs & w3 & -> & Hapi3 & Htr & Hnet).
  { unfold session. rewrite run_bind. unfold PipedriveAPI_init, alloc at 1.
    set (api := fresh (dom (heap w))).
    set (w1 := set_heap (<[api := OGateway api_token ∅]> (heap w)) w).
    rewrite run_bind. unfold PipedriveAPI_register_resource at 1.
    set (w2 := set_registry _ w1).
    assert (Hapi2 : heap w2 !! api = Some (OGateway api_token ∅))
      by apply lookup_insert_eq.
    assert (Hreg2 : resource_registry w2 !! API_ACESSOR_NAME cls = Some cls)
      by apply lookup_insert_eq.
    rewrite run_bind.
    rewrite (getattr_registered w2 api api_token ∅ _ cls Hapi2 Hreg2).
    set (client := fresh (dom (heap w2))).
    set (w3 := set_heap _ w2).
    assert (Hne : api ≠ client) by (by apply (fresh_loc_ne w2 api _ Hapi2)).
    assert (Hclient3 : heap w3 !! client = Some (OResource cls api)).
    { unfold w3. cbn. rewrite lookup_insert_ne by done. apply lookup_insert_eq. }
    unfold BaseResource_list. rewrite run_bind. unfold class_of at 1.
    rewrite Hclient3, Hpath.
    rewrite (resource_send_request_eq w3 client cls api) by done.
    exists api, {[ API_ACESSOR_NAME cls := client ]}, w3.
    split; [done|]. split; [apply lookup_insert_eq | done]. }
  destruct api_token as [token|].
  2: { by rewrite (send_request_mock w3 api None _ "GET" (Some path) None JNull
                     Hapi3 (or_introl eq_refl)). }
  destruct (decide (token = "")) as [->|Htoken].
  { by rewrite (send_request_mock w3 api (Some "") _ "GET" (Some path) None JNull
                  Hapi3 (or_intror eq_refl)). }
  destruct token as [|a token]; [done|].
  destruct (send_request_world w3 api (String a token) _ "GET" path None JNull ∅
              Hapi3 Htoken eq_refl) as (l & w4 & _ & ->).
  cbn. by rewrite Htr, Hnet.
Qed.

Lemma gateway_register_resolve_list_witness :
  let session : M Response :=
    api ← PipedriveAPI_init (Some "tok");
    PipedriveAPI_register_resource deals_full;;
    client ← PipedriveAPI_getattr api "deals";
    BaseResource_list client None JNull in
  let req := {| req_method := "GET"; req_url := BASE_URL ++ "/deals";
                req_params := {[ "api_token" := JStr "tok" ]};
                req_data := JNull |} in
  (session world_down).1 = transport world_down req
  ∧ network (session world_down).2 = (network world_down ++ [req])%list.
Proof.
  apply (gateway_register_resolve_list world_down (Some "tok") deals_full "/deals").
  - reflexivity.
  - vm_compute. intros H. repeat (apply elem_of_cons in H as [H|H]; [discriminate|]).
    by apply elem_of_nil in H.
Defined.
